(** * pyppeteer/execution_context.py: ExecutionContext and JSHandle

    A shallow embedding of the remote-value and handle layer of pyppeteer.
    Python values are an inductive type, handles live in a heap indexed by
    address (so that two uses of one handle see the same [_disposed] flag),
    and every method is a computation in a state-and-exception monad over a
    world made of the heap, the state of the RPC sessions and the log of the
    requests handed to [Session.send]. *)

From Stdlib Require Import ZArith String List Bool Lia.
From Stdlib Require Import Floats.
From stdpp Require Import base list.
Import ListNotations.

Set Warnings "-register-all".

Local Open Scope string_scope.
Local Open Scope list_scope.

(** ** Python values *)

(** The values that cross this layer: JSON data, floats (IEEE doubles, as
    Python's [float]) and references to [JSHandle] objects. *)
Inductive PyVal : Type :=
| PNone
| PBool (b : bool)
| PInt (z : Z)
| PFloat (f : float)
| PStr (s : string)
| PList (l : list PyVal)
| PDict (kv : list (string * PyVal))
| PHandle (r : nat).

(** Exceptions. [ElementHandleError] carries its message, as in the source;
    the others are the built-in exceptions that dictionary and attribute
    access raise, and [SessionError] stands for whatever the RPC session
    raises. [InvalidReference] has no Python counterpart: it is what the
    model answers for an address outside the heap. *)
Inductive Exn : Type :=
| ElementHandleError (msg : string)
| KeyError (key : string)
| AttributeError (attr : string)
| TypeError
| SessionError (payload : PyVal)
| InvalidReference (r : nat).

Inductive result (A : Type) : Type :=
| Ok (a : A)
| Raise (e : Exn).
Arguments Ok {A} a.
Arguments Raise {A} e.

(** [bool(v)]: Python's truth value. A float is false when it compares equal
    to zero (so [-0.0] is false and NaN is true). *)
Definition truthy (v : PyVal) : bool :=
  match v with
  | PNone => false
  | PBool b => b
  | PInt z => negb (Z.eqb z 0)
  | PFloat f => negb (PrimFloat.eqb f zero)
  | PStr s => negb (String.eqb s EmptyString)
  | PList l => match l with [] => false | _ => true end
  | PDict kv => match kv with [] => false | _ => true end
  | PHandle _ => true
  end.

(** [v == f] for a float [f] that is one of the infinities: only a float can
    compare equal to it (no [int] or [bool] does, and [JSHandle] inherits
    the identity comparison of [object]). *)
Definition py_eq_float (v : PyVal) (f : float) : bool :=
  match v with
  | PFloat x => PrimFloat.eqb x f
  | _ => false
  end.

Fixpoint dict_lookup (kv : list (string * PyVal)) (k : string) : option PyVal :=
  match kv with
  | [] => None
  | (k', v) :: rest => if String.eqb k' k then Some v else dict_lookup rest k
  end.

(** [d.get(k, default)] on a dictionary *)
Definition dict_get (kv : list (string * PyVal)) (k : string) (default : PyVal) : PyVal :=
  match dict_lookup kv k with
  | Some v => v
  | None => default
  end.

(** [d.get(k, default)] on any value: only a dictionary has [get]. *)
Definition py_get_default (d : PyVal) (k : string) (default : PyVal) : result PyVal :=
  match d with
  | PDict kv => Ok (dict_get kv k default)
  | _ => Raise (AttributeError "get")
  end.

(** [d.get(k)] *)
Definition py_get (d : PyVal) (k : string) : result PyVal :=
  py_get_default d k PNone.

(** [d[k]] for a string [k] *)
Definition py_getitem (d : PyVal) (k : string) : result PyVal :=
  match d with
  | PDict kv => match dict_lookup kv k with Some v => Ok v | None => Raise (KeyError k) end
  | _ => Raise TypeError
  end.

(** [for x in v]: the items the loop visits. A dictionary yields its keys,
    a string its characters. *)
Definition py_iter (v : PyVal) : result (list PyVal) :=
  match v with
  | PList l => Ok l
  | PDict kv => Ok (map (fun p => PStr (fst p)) kv)
  | PStr s => Ok (map (fun c => PStr (String c EmptyString)) (list_ascii_of_string s))
  | _ => Raise TypeError
  end.

(** Keys a [dict] accepts: lists and dictionaries are unhashable. *)
Definition hashable (v : PyVal) : bool :=
  match v with
  | PList _ | PDict _ => false
  | _ => true
  end.

(** ** Objects *)

(** An RPC session, by identity. *)
Definition Session := nat.

(** [ExecutionContext.__init__]. [ec_addr] is the identity of the object:
    the source compares contexts with [!=], which for this class is
    identity. The handle factory is [objectHandleFactory] below. *)
Record ExecutionContext : Type := mkExecutionContext {
  ec_addr : nat;
  ec_client : Session;
  ec_contextId : Z
}.

Definition ctx_ne (a b : ExecutionContext) : bool :=
  negb (Nat.eqb (ec_addr a) (ec_addr b)).

(** [JSHandle.__init__] *)
Record JSHandle : Type := mkJSHandle {
  h_context : ExecutionContext;
  h_client : Session;
  h_remoteObject : PyVal;
  h_disposed : bool
}.

Definition set_disposed (b : bool) (h : JSHandle) : JSHandle :=
  mkJSHandle (h_context h) (h_client h) (h_remoteObject h) b.

(** One call of [Session.send]. *)
Record Request : Type := mkRequest {
  rq_client : Session;
  rq_method : string;
  rq_params : PyVal
}.

(** ** The world and its monad *)

(** What this module imports from the rest of the package: the RPC session
    of [pyppeteer.connection] and the functions of [pyppeteer.helper]. *)
Class Externals : Type := {
  (** the state of the remote side, as far as the RPC sessions show it *)
  NetSt : Type;
  (** [Session.send(method, params)], awaited: the response, or the
      exception the session raises, and the new state of the remote side *)
  client_send : Session -> string -> PyVal -> NetSt -> result PyVal * NetSt;
  (** [helper.valueFromRemoteObject]: a function of the descriptor alone *)
  valueFromRemoteObject : PyVal -> result PyVal;
  (** [helper.getExceptionMessage] *)
  getExceptionMessage : PyVal -> result string;
  (** [str(v)], as [format] and f-strings apply it *)
  py_str : PyVal -> string;
  (** the failures of a release request that mean the remote object is
      already gone *)
  object_gone : Exn -> bool
}.

Section Model.

Context {ext : Externals}.

Record World : Type := mkWorld {
  heap : list JSHandle;
  net : NetSt;
  sent : list Request
}.

(** A computation runs in a world, returns a value or raises, and leaves a
    world: what an exception interrupts stays done. *)
Definition M (A : Type) : Type := World -> result A * World.

Definition ret {A} (a : A) : M A := fun w => (Ok a, w).

Definition raise {A} (e : Exn) : M A := fun w => (Raise e, w).

Definition bind {A B} (m : M A) (k : A -> M B) : M B :=
  fun w => match m w with
           | (Ok a, w') => k a w'
           | (Raise e, w') => (Raise e, w')
           end.

Definition lift {A} (r : result A) : M A := fun w => (r, w).

Notation "x <- m ;; k" := (bind m (fun x => k))
  (at level 100, m at next level, right associativity).
Notation "m ;;; k" := (bind m (fun _ => k))
  (at level 100, right associativity).

Fixpoint mapM {A B} (f : A -> M B) (l : list A) : M (list B) :=
  match l with
  | [] => ret []
  | a :: rest => b <- f a ;; bs <- mapM f rest ;; ret (b :: bs)
  end.

(** Reading the attributes of the handle at address [r]. *)
Definition load (r : nat) : M JSHandle :=
  fun w => match heap w !! r with
           | Some h => (Ok h, w)
           | None => (Raise (InvalidReference r), w)
           end.

(** The world where the flag of the handle at [r] is [b] and all else is
    as in [w]. *)
Definition set_flag (r : nat) (b : bool) (w : World) : World :=
  mkWorld (alter (set_disposed b) r (heap w)) (net w) (sent w).

(** [handle._disposed = b] *)
Definition store_disposed (r : nat) (b : bool) : M unit :=
  fun w => match heap w !! r with
           | Some _ => (Ok tt, set_flag r b w)
           | None => (Raise (InvalidReference r), w)
           end.

(** [await client.send(method, params)]: the request is logged, then the
    session answers. *)
Definition send (client : Session) (method : string) (params : PyVal) : M PyVal :=
  fun w => let '(r, n) := client_send client method params (net w) in
           (r, mkWorld (heap w) n (sent w ++ [mkRequest client method params])).

(** Modelled from the spec: the handle factory injected into
    [ExecutionContext.__init__] is not in this module. The spec has it wrap
    a descriptor into a handle bound to its context; here it builds a
    [JSHandle] with [JSHandle.__init__], on the context's own client. *)
Definition objectHandleFactory (self : ExecutionContext) (remoteObject : PyVal) : M nat :=
  fun w => (Ok (length (heap w)),
            mkWorld (heap w ++ [mkJSHandle self (ec_client self) remoteObject false])
                    (net w) (sent w)).

(** Modelled from the spec: [helper.releaseObject] is not in this module.
    The spec has it ask the RPC client to release the remote object
    reference, tolerating and not re-raising the failures that mean the
    object is already gone. *)
Definition releaseObject (client : Session) (remoteObject : PyVal) : M unit :=
  fun w =>
    match py_get remoteObject "objectId" with
    | Raise e => (Raise e, w)
    | Ok objectId =>
        match send client "Runtime.releaseObject" (PDict [("objectId", objectId)]) w with
        | (Ok _, w') => (Ok tt, w')
        | (Raise e, w') => if object_gone e then (Ok tt, w') else (Raise e, w')
        end
    end.

(** ** ExecutionContext *)

Definition msg_other_context : string :=
  "JSHandles can be evaluated only in the context they were created!".
Definition msg_disposed : string := "JSHandle is disposed!".
Definition msg_prototype_disposed : string := "Prototype JSHandle is disposed!".
Definition msg_prototype_primitive : string :=
  "Prototype JSHandle must not be referencing primitive value".

Definition _convertArgument (self : ExecutionContext) (arg : PyVal) : M PyVal :=
  if py_eq_float arg infinity then
    ret (PDict [("unserializableValue", PStr "Infinity")])
  else if py_eq_float arg neg_infinity then
    ret (PDict [("unserializableValue", PStr "-Infinity")])
  else
    match arg with
    | PHandle r =>
        objectHandle <- load r ;;
        if ctx_ne (h_context objectHandle) self then
          raise (ElementHandleError msg_other_context)
        else if h_disposed objectHandle then
          raise (ElementHandleError msg_disposed)
        else
          u <- lift (py_get (h_remoteObject objectHandle) "unserializableValue") ;;
          if truthy u then ret (PDict [("unserializableValue", u)])
          else
            objectId <- lift (py_get (h_remoteObject objectHandle) "objectId") ;;
            if negb (truthy objectId) then
              v <- lift (py_get (h_remoteObject objectHandle) "value") ;;
              ret (PDict [("value", v)])
            else ret (PDict [("objectId", objectId)])
    | _ => ret (PDict [("value", arg)])
    end.

Definition evaluateHandle (self : ExecutionContext) (pageFunction : string)
    (args : list PyVal) : M nat :=
  arguments <- mapM (_convertArgument self) args ;;
  _obj <- send (ec_client self) "Runtime.callFunctionOn"
            (PDict [("functionDeclaration", PStr pageFunction);
                    ("executionContextId", PInt (ec_contextId self));
                    ("arguments", PList arguments);
                    ("returnByValue", PBool false);
                    ("awaitPromiss", PBool true)]) ;;
  exceptionDetails <- lift (py_get _obj "exceptionDetails") ;;
  if truthy exceptionDetails then
    m <- lift (getExceptionMessage exceptionDetails) ;;
    raise (ElementHandleError (String.append "Evaluation failed: " m))
  else
    remoteObject <- lift (py_get _obj "result") ;;
    objectHandleFactory self remoteObject.

Definition queryObject (self : ExecutionContext) (prototypeHandle : nat) : M nat :=
  p <- load prototypeHandle ;;
  if h_disposed p then raise (ElementHandleError msg_prototype_disposed)
  else
    objectId <- lift (py_get (h_remoteObject p) "objectId") ;;
    if negb (truthy objectId) then raise (ElementHandleError msg_prototype_primitive)
    else
      oid <- lift (py_getitem (h_remoteObject p) "objectId") ;;
      response <- send (ec_client self) "Runtime.queryObject"
                    (PDict [("prototypeObjectId", oid)]) ;;
      objects <- lift (py_get response "objects") ;;
      objectHandleFactory self objects.

(** ** JSHandle *)

(** The mapping [getProperties] builds, as its assignments in order: a later
    binding of a key overrides an earlier one. *)
Definition Properties : Type := list (PyVal * nat).

(** [properties[name]] for a string [name]: the last binding of that key. *)
Fixpoint props_lookup (ps : Properties) (name : string) : option nat :=
  match ps with
  | [] => None
  | (k, r) :: rest =>
      match props_lookup rest name with
      | Some r' => Some r'
      | None => match k with
                | PStr s => if String.eqb s name then Some r else None
                | _ => None
                end
      end
  end.

(** The body of the loop of [getProperties], over the items still to visit. *)
Fixpoint getProperties_loop (context : ExecutionContext) (items : list PyVal)
    (result : Properties) : M Properties :=
  match items with
  | [] => ret result
  | prop :: rest =>
      enumerable <- lift (py_get prop "enumerable") ;;
      if negb (truthy enumerable) then getProperties_loop context rest result
      else
        value <- lift (py_get prop "value") ;;
        handle <- objectHandleFactory context value ;;
        name <- lift (py_get prop "name") ;;
        if hashable name then getProperties_loop context rest (result ++ [(name, handle)])
        else raise TypeError
  end.

Definition getProperties (self : nat) : M Properties :=
  h <- load self ;;
  objectId <- lift (py_get_default (h_remoteObject h) "objectId" (PStr EmptyString)) ;;
  response <- send (h_client h) "Runtime.getProperties"
                (PDict [("objectId", objectId); ("ownProperties", PBool true)]) ;;
  props <- lift (py_getitem response "result") ;;
  items <- lift (py_iter props) ;;
  getProperties_loop (h_context h) items [].

Definition jsonValue (self : nat) : M PyVal :=
  h <- load self ;;
  objectId <- lift (py_get (h_remoteObject h) "objectId") ;;
  if truthy objectId then
    response <- send (h_client h) "Runtime.callFunctionOn"
                  (PDict [("functionDeclaration", PStr "function() { return this; }");
                          ("objectId", objectId);
                          ("returnByValue", PBool true);
                          ("awaitPromiss", PBool true)]) ;;
    r <- lift (py_getitem response "result") ;;
    lift (valueFromRemoteObject r)
  else lift (valueFromRemoteObject (h_remoteObject h)).

Definition asElement (self : nat) : M PyVal :=
  ret PNone.

Definition dispose (self : nat) : M unit :=
  h <- load self ;;
  if h_disposed h then ret tt
  else
    store_disposed self true ;;;
    releaseObject (h_client h) (h_remoteObject h).

Definition toString (self : nat) : M string :=
  h <- load self ;;
  objectId <- lift (py_get (h_remoteObject h) "objectId") ;;
  if truthy objectId then
    subtype <- lift (py_get (h_remoteObject h) "subtype") ;;
    _type <- (if truthy subtype then ret subtype
              else lift (py_get (h_remoteObject h) "type")) ;;
    ret (String.append "JSHandle@" (py_str _type))
  else
    v <- lift (valueFromRemoteObject (h_remoteObject h)) ;;
    ret (String.append "JSHandle: " (py_str v)).

Definition property_source : string :=
  "(object, propertyName) => {
                const result = {__proto__: null};
                result[propertyName] = object[propertyName];
                return result;
            }".

Definition getProperty (self : nat) (propertyName : string) : M nat :=
  h <- load self ;;
  objectHandle <- evaluateHandle (h_context h) property_source
                    [PHandle self; PStr propertyName] ;;
  properties <- getProperties objectHandle ;;
  match props_lookup properties propertyName with
  | None => raise (KeyError propertyName)
  | Some result =>
      dispose objectHandle ;;;
      ret result
  end.

Definition evaluate (self : ExecutionContext) (pageFunction : string)
    (args : list PyVal) : M PyVal :=
  handle <- evaluateHandle self pageFunction args ;;
  result <- jsonValue handle ;;
  dispose handle ;;;
  ret result.

End Model.

(** ** Observations on worlds and arguments *)

(** [d.get(k)] is true: the test by which the source decides that a
    descriptor carries the field [k]. *)
Definition carries (kv : list (string * PyVal)) (k : string) : bool :=
  truthy (dict_get kv k PNone).

Definition is_dict (v : PyVal) : bool :=
  match v with
  | PDict _ => true
  | _ => false
  end.

(** The request of [getProperties] on the handle [h], for the object id it
    reads off the descriptor. *)
Definition getProperties_request (h : JSHandle) (objectId : PyVal) : Request :=
  mkRequest (h_client h) "Runtime.getProperties"
    (PDict [("objectId", objectId); ("ownProperties", PBool true)]).

Definition is_release (q : Request) : bool :=
  String.eqb (rq_method q) "Runtime.releaseObject".

(** The release requests among the requests sent. *)
Definition release_requests (l : list Request) : nat :=
  length (List.filter is_release l).

Section Observations.

Context {ext : Externals}.

(** The [_disposed] flag of the handle at [r]. *)
Definition disposed_at (w : World) (r : nat) : option bool :=
  h_disposed <$> heap w !! r.

Definition handle_of (w : World) (arg : PyVal) : option JSHandle :=
  match arg with
  | PHandle r => heap w !! r
  | _ => None
  end.

(** The argument is a handle of another context than [self]. *)
Definition foreign (self : ExecutionContext) (w : World) (arg : PyVal) : bool :=
  match handle_of w arg with
  | Some h => ctx_ne (h_context h) self
  | None => false
  end.

(** The argument is a disposed handle. *)
Definition disposed_arg (w : World) (arg : PyVal) : bool :=
  match handle_of w arg with
  | Some h => h_disposed h
  | None => false
  end.

(** A handle argument designates an object of the heap whose descriptor is a
    dictionary, as [JSHandle.__init__] types it. *)
Definition wf_arg (w : World) (arg : PyVal) : bool :=
  match arg with
  | PHandle r => match heap w !! r with
                 | Some h => is_dict (h_remoteObject h)
                 | None => false
                 end
  | _ => true
  end.

(** A property of a get-properties response that the remote side marks as
    enumerable. *)
Definition enumerable (prop : PyVal) : bool :=
  match prop with
  | PDict kv => carries kv "enumerable"
  | _ => false
  end.

Definition prop_name (prop : PyVal) : PyVal :=
  match prop with
  | PDict kv => dict_get kv "name" PNone
  | _ => PNone
  end.

Definition prop_value (prop : PyVal) : PyVal :=
  match prop with
  | PDict kv => dict_get kv "value" PNone
  | _ => PNone
  end.

(** A well-formed entry of a get-properties response: a dictionary whose
    name, when the property is enumerable, can be a key. *)
Definition wf_prop (prop : PyVal) : bool :=
  is_dict prop && (negb (enumerable prop) || hashable (prop_name prop)).

(** The handle the factory of [context] makes of a property's value. *)
Definition wrap (context : ExecutionContext) (prop : PyVal) : JSHandle :=
  mkJSHandle context (ec_client context) (prop_value prop) false.

(** What the spec has [getProperties] return for the entries [items] of a
    response, when the heap holds [base] objects: the enumerable entries,
    each name bound to a fresh handle, in the order of the response. *)
Definition enumerable_entries (base : nat) (items : list PyVal) : Properties :=
  let kept := List.filter enumerable items in
  combine (map prop_name kept) (seq base (length kept)).

End Observations.

(** ** A scripted session

    The test double used for the concrete runs: the session answers each
    request with the next entry of a script, whatever the request. *)

Definition scripted_send (_ : Session) (_ : string) (_ : PyVal)
    (script : list (result PyVal)) : result PyVal * list (result PyVal) :=
  match script with
  | [] => (Raise (SessionError (PStr "Session closed")), [])
  | r :: rest => (r, rest)
  end.

(** Modelled from the spec: [helper.valueFromRemoteObject] is not in this
    module. The spec has the sentinel strings map back to the corresponding
    special value and a descriptor without sentinel yield its [value]
    ([None] when it has none). *)
Definition sample_valueFromRemoteObject (d : PyVal) : result PyVal :=
  match py_get d "unserializableValue" with
  | Raise e => Raise e
  | Ok (PStr u) =>
      if String.eqb u EmptyString then py_get d "value"
      else if String.eqb u "-0" then Ok (PFloat neg_zero)
      else if String.eqb u "NaN" then Ok (PFloat nan)
      else if String.eqb u "Infinity" then Ok (PFloat infinity)
      else if String.eqb u "-Infinity" then Ok (PFloat neg_infinity)
      else Raise (ElementHandleError "Unsupported unserializable value")
  | Ok _ => py_get d "value"
  end.

Definition scripted : Externals := {|
  NetSt := list (result PyVal);
  client_send := scripted_send;
  valueFromRemoteObject := sample_valueFromRemoteObject;
  getExceptionMessage := fun _ => Ok "Error: thrown in the page";
  py_str := fun _ => "<value>";
  object_gone := fun e => match e with SessionError _ => true | _ => false end
|}.

Definition ctx0 : ExecutionContext := mkExecutionContext 0 0 1.
Definition ctx1 : ExecutionContext := mkExecutionContext 1 0 2.

(** A live object and a primitive, as the remote side describes them. *)
Definition desc_object : PyVal :=
  PDict [("type", PStr "object"); ("objectId", PStr "obj-1")].
Definition desc_five : PyVal :=
  PDict [("type", PStr "number"); ("value", PInt 5)].

Definition world0 (hs : list JSHandle) (script : list (result PyVal)) : @World scripted :=
  @mkWorld scripted hs script [].

(** Handles on these descriptors. *)
Definition live_object : JSHandle := mkJSHandle ctx0 0 desc_object false.
Definition disposed_object : JSHandle := mkJSHandle ctx0 0 desc_object true.
Definition foreign_object : JSHandle := mkJSHandle ctx1 0 desc_object false.
Definition live_five : JSHandle := mkJSHandle ctx0 0 desc_five false.
Definition disposed_five : JSHandle := mkJSHandle ctx0 0 desc_five true.

(** A get-properties response with one enumerable and one hidden
    property. *)
Definition prop_x : PyVal :=
  PDict [("name", PStr "x"); ("enumerable", PBool true); ("value", desc_five)].
Definition prop_hidden : PyVal :=
  PDict [("name", PStr "hidden"); ("enumerable", PBool false); ("value", desc_object)].
Definition response_props : PyVal :=
  PDict [("result", PList [prop_x; prop_hidden])].

(** An evaluation that yields an object, whose value then comes back as 5,
    and whose release is acknowledged. *)
Definition script_evaluate : list (result PyVal) :=
  [Ok (PDict [("result", desc_object)]);
   Ok (PDict [("result", desc_five)]);
   Ok (PDict [])].

(** An evaluation that yields an object the remote side then refuses to
    return by value. *)
Definition not_by_value : Exn :=
  SessionError (PStr "Object reference chain is too long").
Definition script_evaluate_fails : list (result PyVal) :=
  [Ok (PDict [("result", desc_object)]); Raise not_by_value].

Definition page_function : string := "() => window".

(** The exchange behind [getProperty("x")]: the carrier object, its
    properties, the acknowledgement of its release. *)
Definition desc_carrier : PyVal :=
  PDict [("type", PStr "object"); ("objectId", PStr "carrier-1")].
Definition script_getProperty : list (result PyVal) :=
  [Ok (PDict [("result", desc_carrier)]); Ok response_props; Ok (PDict [])].

(** A second enumerable property of the name [x], on an object. *)
Definition prop_x_again : PyVal :=
  PDict [("name", PStr "x"); ("enumerable", PBool true); ("value", desc_object)].
Definition response_twice : PyVal :=
  PDict [("result", PList [prop_x; prop_hidden; prop_x_again])].

(** A sum that comes back as the number 3. *)
Definition script_sum : list (result PyVal) :=
  [Ok (PDict [("result", PDict [("type", PStr "number"); ("value", PInt 3)])]);
   Ok (PDict [])].

(** An evaluation during which the page throws. *)
Definition script_throws : list (result PyVal) :=
  [Ok (PDict [("exceptionDetails", PDict [("text", PStr "Uncaught")])])].

(** ** What operations may do to a world *)

Section Invariants.

Context {ext : Externals}.

(** What an operation may do to a handle it finds: dispose it, and nothing
    else. The context, the client and the descriptor stay, and a set flag
    stays set. *)
Definition handle_kept (h h' : JSHandle) : Prop :=
  h_context h' = h_context h
  /\ h_client h' = h_client h
  /\ h_remoteObject h' = h_remoteObject h
  /\ (h_disposed h = true -> h_disposed h' = true).

(** [w'] comes after [w]: every handle of [w] is kept at its address, and
    the requests sent in [w] are the first of those sent in [w']. *)
Definition world_le (w w' : World) : Prop :=
  (forall r h, heap w !! r = Some h ->
     exists h', heap w' !! r = Some h' /\ handle_kept h h')
  /\ (exists more, sent w' = sent w ++ more).

Definition preserves {A : Type} (m : M A) : Prop :=
  forall w, world_le w (snd (m w)).

(** The computation adds no release request to those sent. *)
Definition releases_nothing {A : Type} (m : M A) : Prop :=
  forall w, release_requests (sent (snd (m w))) = release_requests (sent w).

(** The computation sends at most [n] requests, after those already sent. *)
Definition sends_at_most {A : Type} (n : nat) (m : M A) : Prop :=
  forall w, exists more, sent (snd (m w)) = sent w ++ more /\ length more <= n.

(** The request of [evaluateHandle] for the encoded [arguments]. *)
Definition evaluateHandle_request (self : ExecutionContext) (pageFunction : string)
    (arguments : list PyVal) : Request :=
  mkRequest (ec_client self) "Runtime.callFunctionOn"
    (PDict [("functionDeclaration", PStr pageFunction);
            ("executionContextId", PInt (ec_contextId self));
            ("arguments", PList arguments);
            ("returnByValue", PBool false);
            ("awaitPromiss", PBool true)]).

(** The request of [jsonValue] for the object [objectId]. *)
Definition jsonValue_request (h : JSHandle) (objectId : PyVal) : Request :=
  mkRequest (h_client h) "Runtime.callFunctionOn"
    (PDict [("functionDeclaration", PStr "function() { return this; }");
            ("objectId", objectId);
            ("returnByValue", PBool true);
            ("awaitPromiss", PBool true)]).

(** The request of [queryObject] for the prototype [objectId]. *)
Definition queryObject_request (self : ExecutionContext) (objectId : PyVal) : Request :=
  mkRequest (ec_client self) "Runtime.queryObject"
    (PDict [("prototypeObjectId", objectId)]).

(** The answer of the session to the request [q] in the world [w]. *)
Definition answer (q : Request) (w : World) : result PyVal * NetSt :=
  client_send (rq_client q) (rq_method q) (rq_params q) (net w).

(** The world once the session has answered [q], with [hs] the new
    handles. *)
Definition after (q : Request) (hs : list JSHandle) (w : World) : World :=
  mkWorld (heap w ++ hs) (snd (answer q w)) (sent w ++ [q]).

End Invariants.

(** * Properties *)

(** ** Floats: what compares equal to an infinity *)

Section FloatFacts.

Lemma SF_infinity : Prim2SF infinity = S754_infinity false.
Proof. reflexivity. Qed.

Lemma SF_neg_infinity : Prim2SF neg_infinity = S754_infinity true.
Proof. reflexivity. Qed.

Lemma SF_neg_zero : Prim2SF neg_zero = S754_zero true.
Proof. reflexivity. Qed.

(** A value equal to one infinity is not equal to the other. *)
Lemma eqb_neg_infinity_not_infinity (x : float) :
  PrimFloat.eqb x neg_infinity = true -> PrimFloat.eqb x infinity = false.
Proof.
  rewrite !FloatAxioms.eqb_spec, SF_infinity, SF_neg_infinity.
  destruct (Prim2SF x) as [s | s | | s m e]; cbn; try reflexivity.
  destruct s; [reflexivity | discriminate].
Qed.

(** NaN compares equal to nothing, itself included. *)
Lemma is_nan_not_infinite (x : float) :
  is_nan x = true ->
  PrimFloat.eqb x infinity = false /\ PrimFloat.eqb x neg_infinity = false.
Proof.
  unfold is_nan. rewrite !FloatAxioms.eqb_spec, SF_infinity, SF_neg_infinity.
  destruct (Prim2SF x) as [s | s | | s m e]; cbn;
    try (destruct s; cbn); intros H; try discriminate H; split; reflexivity.
Qed.

(** Both zeros compare equal to [-0.0], and neither is an infinity. *)
Lemma zero_not_infinite (x : float) :
  PrimFloat.eqb x neg_zero = true ->
  PrimFloat.eqb x infinity = false /\ PrimFloat.eqb x neg_infinity = false.
Proof.
  rewrite !FloatAxioms.eqb_spec, SF_infinity, SF_neg_infinity, SF_neg_zero.
  destruct (Prim2SF x) as [s | s | | s m e]; cbn;
    try (destruct s; cbn); intros H; try discriminate H; split; reflexivity.
Qed.

End FloatFacts.

(** ** Argument encoding *)

Section ConvertArgument.

Context {ext : Externals}.

Implicit Types (self : ExecutionContext) (w : World) (arg : PyVal).

Lemma handle_not_float (r : nat) (f : float) : py_eq_float (PHandle r) f = false.
Proof. reflexivity. Qed.

Lemma py_get_dict (kv : list (string * PyVal)) (k : string) :
  py_get (PDict kv) k = Ok (dict_get kv k PNone).
Proof. reflexivity. Qed.

(** On a wire descriptor a field is absent or holds a non-empty string: the
    test of the source then says whether the field is present. *)
Lemma carries_wire (kv : list (string * PyVal)) (k : string) :
  (dict_lookup kv k = None -> carries kv k = false)
  /\ (forall c s, dict_lookup kv k = Some (PStr (String c s)) -> carries kv k = true).
Proof.
  unfold carries, dict_get. split.
  - now intros ->.
  - now intros c s ->.
Qed.

(** Encoding an argument reads the heap and writes nothing. *)
Lemma convertArgument_world self arg w :
  snd (_convertArgument self arg w) = w.
Proof.
  unfold _convertArgument.
  destruct (py_eq_float arg infinity); [reflexivity |].
  destruct (py_eq_float arg neg_infinity); [reflexivity |].
  destruct arg as [| | | | | | | r]; try reflexivity.
  unfold bind, load, lift, ret, raise.
  destruct (heap w !! r) as [h |]; [| reflexivity].
  destruct (ctx_ne (h_context h) self); [reflexivity |].
  destruct (h_disposed h); [reflexivity |].
  destruct (py_get (h_remoteObject h) "unserializableValue") as [u |]; [| reflexivity].
  destruct (truthy u); [reflexivity |].
  destruct (py_get (h_remoteObject h) "objectId") as [o |]; [| reflexivity].
  destruct (truthy o); cbn; [reflexivity |].
  destruct (py_get (h_remoteObject h) "value"); reflexivity.
Qed.

Lemma convertArgument_handle self r h kv w :
  heap w !! r = Some h ->
  ctx_ne (h_context h) self = false ->
  h_disposed h = false ->
  h_remoteObject h = PDict kv ->
  _convertArgument self (PHandle r) w =
    (Ok (if carries kv "unserializableValue"
         then PDict [("unserializableValue", dict_get kv "unserializableValue" PNone)]
         else if carries kv "objectId"
              then PDict [("objectId", dict_get kv "objectId" PNone)]
              else PDict [("value", dict_get kv "value" PNone)]), w).
Proof.
  intros Hr Hc Hd Hk.
  unfold _convertArgument, carries. rewrite !handle_not_float.
  unfold bind, load, lift, ret. rewrite Hr, Hc, Hd, Hk, !py_get_dict.
  destruct (truthy (dict_get kv "unserializableValue" PNone)); [reflexivity |].
  destruct (truthy (dict_get kv "objectId" PNone)); reflexivity.
Qed.

Lemma handle_of_inv w arg h :
  handle_of w arg = Some h -> exists r, arg = PHandle r /\ heap w !! r = Some h.
Proof. destruct arg; cbn; try discriminate. eauto. Qed.

Lemma convertArgument_foreign self arg w :
  foreign self w arg = true ->
  _convertArgument self arg w = (Raise (ElementHandleError msg_other_context), w).
Proof.
  unfold foreign. destruct (handle_of w arg) as [h |] eqn:Hh; [| discriminate].
  apply handle_of_inv in Hh as (r & -> & Hr). intros Hc.
  unfold _convertArgument. rewrite !handle_not_float.
  unfold bind, load. rewrite Hr, Hc. reflexivity.
Qed.

Lemma convertArgument_disposed self arg w :
  foreign self w arg = false ->
  disposed_arg w arg = true ->
  _convertArgument self arg w = (Raise (ElementHandleError msg_disposed), w).
Proof.
  unfold foreign, disposed_arg.
  destruct (handle_of w arg) as [h |] eqn:Hh; [| discriminate].
  apply handle_of_inv in Hh as (r & -> & Hr). intros Hc Hd.
  unfold _convertArgument. rewrite !handle_not_float.
  unfold bind, load. rewrite Hr, Hc, Hd. reflexivity.
Qed.

Lemma convertArgument_accepts self arg w :
  wf_arg w arg = true ->
  foreign self w arg = false ->
  disposed_arg w arg = false ->
  exists v, _convertArgument self arg w = (Ok v, w).
Proof.
  intros Hwf Hf Hd.
  destruct (py_eq_float arg infinity) eqn:Hi.
  { unfold _convertArgument. rewrite Hi. eauto. }
  destruct (py_eq_float arg neg_infinity) eqn:Hn.
  { unfold _convertArgument. rewrite Hi, Hn. eauto. }
  destruct arg as [| b | z | f | s | l | kv | r];
    try (unfold _convertArgument; rewrite Hi, Hn; eauto; fail).
  cbn in Hwf. unfold foreign, disposed_arg in *. cbn in Hf, Hd.
  destruct (heap w !! r) as [h |] eqn:Hr; [| discriminate].
  destruct (h_remoteObject h) as [| | | | | | kv |] eqn:Hk; try discriminate.
  erewrite convertArgument_handle by eassumption. eauto.
Qed.

(** The first offending argument decides how the encoding of a list fails,
    and the world is untouched. *)
Lemma mapM_convert_rejects self w (args : list PyVal) :
  Forall (fun a => wf_arg w a = true) args ->
  (exists a, In a args /\ (foreign self w a = true \/ disposed_arg w a = true)) ->
  exists e,
    mapM (_convertArgument self) args w = (Raise e, w)
    /\ (e = ElementHandleError msg_other_context \/ e = ElementHandleError msg_disposed)
    /\ ((forall a, In a args -> foreign self w a = false) ->
        e = ElementHandleError msg_disposed)
    /\ ((forall a, In a args -> foreign self w a = false -> disposed_arg w a = false) ->
        e = ElementHandleError msg_other_context).
Proof.
  induction args as [| a rest IH]; intros Hwf (b & Hin & Hbad).
  { destruct Hin. }
  apply Forall_cons_1 in Hwf as [Hwa Hwr].
  destruct (foreign self w a) eqn:Hf.
  { exists (ElementHandleError msg_other_context). cbn. unfold bind.
    rewrite (convertArgument_foreign _ _ _ Hf).
    repeat split; auto.
    intros Hnone. specialize (Hnone a (or_introl eq_refl)). congruence. }
  destruct (disposed_arg w a) eqn:Hd.
  { exists (ElementHandleError msg_disposed). cbn. unfold bind.
    rewrite (convertArgument_disposed _ _ _ Hf Hd).
    repeat split; auto.
    intros Hnone. specialize (Hnone a (or_introl eq_refl) Hf). congruence. }
  destruct (convertArgument_accepts _ _ _ Hwa Hf Hd) as [v Hv].
  destruct IH as (e & Hrun & Hkind & Hdis & Hcross).
  { exact Hwr. }
  { exists b. split; [| exact Hbad].
    destruct Hin as [<- | Hin]; [| exact Hin].
    destruct Hbad; congruence. }
  exists e. cbn. unfold bind at 1. rewrite Hv. unfold bind at 1. rewrite Hrun.
  split; [reflexivity |]. split; [exact Hkind |]. split.
  - intros H. apply Hdis. intros x Hx. apply H. now right.
  - intros H. apply Hcross. intros x Hx. apply H. now right.
Qed.

(** C4. [_convertArgument] applies its rules in order, the first match
    winning: an argument equal to positive infinity is encoded as
    [{unserializableValue: "Infinity"}] and one equal to negative infinity as
    [{unserializableValue: "-Infinity"}]; a handle of this context that is
    not disposed is encoded by its descriptor's [unserializableValue] when
    the descriptor carries one, else by [{value: descriptor.value}] when it
    carries no [objectId], else by [{objectId: descriptor.objectId}]; any
    other argument is encoded as [{value: argument}]. The world is left as
    it was. *)
Theorem convertArgument_first_match self arg w :
  (py_eq_float arg infinity = true ->
   _convertArgument self arg w =
     (Ok (PDict [("unserializableValue", PStr "Infinity")]), w))
  /\ (py_eq_float arg neg_infinity = true ->
      _convertArgument self arg w =
        (Ok (PDict [("unserializableValue", PStr "-Infinity")]), w))
  /\ (forall r h kv,
        arg = PHandle r ->
        heap w !! r = Some h ->
        ctx_ne (h_context h) self = false ->
        h_disposed h = false ->
        h_remoteObject h = PDict kv ->
        _convertArgument self arg w =
          (Ok (if carries kv "unserializableValue"
               then PDict [("unserializableValue",
                            dict_get kv "unserializableValue" PNone)]
               else if carries kv "objectId"
                    then PDict [("objectId", dict_get kv "objectId" PNone)]
                    else PDict [("value", dict_get kv "value" PNone)]), w))
  /\ (py_eq_float arg infinity = false ->
      py_eq_float arg neg_infinity = false ->
      (forall r, arg <> PHandle r) ->
      _convertArgument self arg w = (Ok (PDict [("value", arg)]), w)).
Proof.
  repeat split.
  - intros Hi. unfold _convertArgument. now rewrite Hi.
  - intros Hn. unfold _convertArgument.
    destruct arg; try discriminate Hn. cbn in Hn |- *.
    now rewrite (eqb_neg_infinity_not_infinity _ Hn), Hn.
  - intros r h kv -> Hr Hc Hd Hk. now apply (convertArgument_handle self r h).
  - intros Hi Hn Hnh. unfold _convertArgument. rewrite Hi, Hn.
    destruct arg; try reflexivity. now destruct (Hnh r).
Qed.

(** C10. A float argument that is NaN, or that compares equal to negative
    zero, meets neither infinity test and is no handle: it is encoded by the
    last rule, as [{value: argument}], not as an [unserializableValue]
    sentinel. *)
Theorem convertArgument_nan_negative_zero self (f : float) w :
  is_nan f = true \/ PrimFloat.eqb f neg_zero = true ->
  _convertArgument self (PFloat f) w = (Ok (PDict [("value", PFloat f)]), w).
Proof.
  intros H. unfold _convertArgument. cbn [py_eq_float].
  assert (PrimFloat.eqb f infinity = false /\ PrimFloat.eqb f neg_infinity = false)
    as [-> ->].
  { destruct H; [now apply is_nan_not_infinite | now apply zero_not_infinite]. }
  reflexivity.
Qed.

(** C5. When the arguments of [evaluateHandle] hold a handle of another
    context, or a disposed handle, the call raises before any request
    reaches the client: the world, and with it the log of requests, is what
    it was. The error is [ElementHandleError] with the message of the cross
    context check or of the disposal check; it is the disposal error when
    no handle is foreign, and the cross context error when no handle of
    this context is disposed. *)
Theorem evaluateHandle_rejects_before_send self (pageFunction : string)
    (args : list PyVal) w :
  Forall (fun a => wf_arg w a = true) args ->
  (exists a, In a args /\ (foreign self w a = true \/ disposed_arg w a = true)) ->
  exists e,
    evaluateHandle self pageFunction args w = (Raise e, w)
    /\ (e = ElementHandleError msg_other_context \/ e = ElementHandleError msg_disposed)
    /\ ((forall a, In a args -> foreign self w a = false) ->
        e = ElementHandleError msg_disposed)
    /\ ((forall a, In a args -> foreign self w a = false -> disposed_arg w a = false) ->
        e = ElementHandleError msg_other_context).
Proof.
  intros Hwf Hbad.
  destruct (mapM_convert_rejects self w args Hwf Hbad) as (e & Hrun & Hrest).
  exists e. split; [| exact Hrest].
  unfold evaluateHandle, bind at 1. now rewrite Hrun.
Qed.

End ConvertArgument.

(** ** Requests and the heap *)

Section Handles.

Context {ext : Externals}.

Implicit Types (self : ExecutionContext) (w : World) (h : JSHandle).

Lemma release_requests_app (l1 l2 : list Request) :
  release_requests (l1 ++ l2) = release_requests l1 + release_requests l2.
Proof. unfold release_requests. now rewrite List.filter_app, length_app. Qed.

(** What [send] leaves: the answer of the session and one more request. *)
Lemma send_world client method params w :
  snd (send client method params w) =
    mkWorld (heap w) (snd (client_send client method params (net w)))
            (sent w ++ [mkRequest client method params]).
Proof. unfold send. now destruct (client_send _ _ _ _). Qed.

Lemma load_some r h w : heap w !! r = Some h -> load r w = (Ok h, w).
Proof. intros H. unfold load. now rewrite H. Qed.

Lemma disposed_at_set_flag r b h w :
  heap w !! r = Some h -> disposed_at (set_flag r b w) r = Some b.
Proof.
  intros H. unfold disposed_at, set_flag. cbn.
  now rewrite list_lookup_alter_eq, H.
Qed.

(** A release leaves the heap alone and sends one request at most. *)
Lemma releaseObject_effect client d w :
  heap (snd (releaseObject client d w)) = heap w
  /\ release_requests (sent (snd (releaseObject client d w)))
       <= release_requests (sent w) + 1.
Proof.
  unfold releaseObject.
  destruct (py_get d "objectId") as [o | e]; cbn; [| split; [reflexivity | lia]].
  pose proof (send_world client "Runtime.releaseObject" (PDict [("objectId", o)]) w) as Hs.
  destruct (send client "Runtime.releaseObject" (PDict [("objectId", o)]) w) as [[x | e] w'];
    cbn in Hs; subst w'; try destruct (object_gone e); cbn [snd heap sent];
    rewrite release_requests_app; (split; [reflexivity | cbn; lia]).
Qed.

Lemma dispose_disposed r h w :
  heap w !! r = Some h -> h_disposed h = true -> dispose r w = (Ok tt, w).
Proof.
  intros Hr Hd. unfold dispose, bind. now rewrite (load_some _ _ _ Hr), Hd.
Qed.

Lemma dispose_live r h w :
  heap w !! r = Some h -> h_disposed h = false ->
  dispose r w = releaseObject (h_client h) (h_remoteObject h) (set_flag r true w).
Proof.
  intros Hr Hd. unfold dispose, bind. rewrite (load_some _ _ _ Hr), Hd.
  unfold store_disposed. now rewrite Hr.
Qed.

(** Whatever its outcome, [dispose] leaves the handle disposed. *)
Lemma dispose_sets_flag r h w :
  heap w !! r = Some h -> disposed_at (snd (dispose r w)) r = Some true.
Proof.
  intros Hr. destruct (h_disposed h) eqn:Hd.
  - rewrite (dispose_disposed _ _ _ Hr Hd). unfold disposed_at. cbn.
    now rewrite Hr, <- Hd.
  - rewrite (dispose_live _ _ _ Hr Hd). unfold disposed_at.
    destruct (releaseObject_effect (h_client h) (h_remoteObject h) (set_flag r true w))
      as [-> _].
    now apply (disposed_at_set_flag r true h).
Qed.

(** C6. [queryObject] on a disposed prototype handle raises the disposal
    error; on a live one whose descriptor carries no [objectId] it raises the
    error for a primitive prototype. In both cases the world is what it was:
    no request reached the client. *)
Theorem queryObject_rejects_before_send self (prototypeHandle : nat) h w :
  heap w !! prototypeHandle = Some h ->
  (h_disposed h = true ->
   queryObject self prototypeHandle w =
     (Raise (ElementHandleError msg_prototype_disposed), w))
  /\ (forall kv,
        h_disposed h = false ->
        h_remoteObject h = PDict kv ->
        carries kv "objectId" = false ->
        queryObject self prototypeHandle w =
          (Raise (ElementHandleError msg_prototype_primitive), w)).
Proof.
  intros Hr. split.
  - intros Hd. unfold queryObject, bind. now rewrite (load_some _ _ _ Hr), Hd.
  - intros kv Hd Hk Hc. unfold queryObject, bind, lift.
    rewrite (load_some _ _ _ Hr), Hd, Hk. cbn.
    unfold carries in Hc. now rewrite Hc.
Qed.

(** C7. [dispose] is idempotent. After a first call, whatever its outcome,
    the handle is disposed; a second call returns without raising and
    leaves the world as the first left it; the two calls together add at
    most one release request to those sent. On a live handle the release
    runs in the world where the flag is already set. *)
Theorem dispose_idempotent (r : nat) h w :
  heap w !! r = Some h ->
  let w1 := snd (dispose r w) in
  disposed_at w1 r = Some true
  /\ dispose r w1 = (Ok tt, w1)
  /\ release_requests (sent (snd (dispose r w1))) <= release_requests (sent w) + 1
  /\ (h_disposed h = false ->
      dispose r w =
        releaseObject (h_client h) (h_remoteObject h) (set_flag r true w)
      /\ disposed_at (set_flag r true w) r = Some true).
Proof.
  intros Hr w1.
  assert (Hflag : disposed_at w1 r = Some true) by now apply (dispose_sets_flag r h).
  assert (Hsecond : dispose r w1 = (Ok tt, w1)).
  { unfold disposed_at in Hflag.
    destruct (heap w1 !! r) as [h1 |] eqn:Hr1; [| discriminate].
    apply (dispose_disposed r h1); [exact Hr1 |]. cbn in Hflag. congruence. }
  split; [exact Hflag |]. split; [exact Hsecond |]. split.
  - rewrite Hsecond. cbn. subst w1.
    destruct (h_disposed h) eqn:Hd.
    + rewrite (dispose_disposed _ _ _ Hr Hd). cbn. lia.
    + rewrite (dispose_live _ _ _ Hr Hd).
      apply (releaseObject_effect (h_client h) (h_remoteObject h) (set_flag r true w)).
  - intros Hd. split; [now apply dispose_live |].
    now apply (disposed_at_set_flag r true h).
Qed.

(** C8. [jsonValue] on a handle whose descriptor carries no [objectId]
    converts the descriptor itself and leaves the world as it was, so that
    no request is sent; when the descriptor carries an [objectId] it sends
    one request, [Runtime.callFunctionOn] with [returnByValue] true, and
    leaves the heap as it was. *)
Theorem jsonValue_requests (r : nat) h kv w :
  heap w !! r = Some h ->
  h_remoteObject h = PDict kv ->
  (carries kv "objectId" = false ->
   jsonValue r w = (valueFromRemoteObject (PDict kv), w))
  /\ (carries kv "objectId" = true ->
      sent (snd (jsonValue r w)) =
        sent w ++ [mkRequest (h_client h) "Runtime.callFunctionOn"
                     (PDict [("functionDeclaration", PStr "function() { return this; }");
                             ("objectId", dict_get kv "objectId" PNone);
                             ("returnByValue", PBool true);
                             ("awaitPromiss", PBool true)])]
      /\ heap (snd (jsonValue r w)) = heap w).
Proof.
  intros Hr Hk. unfold jsonValue, bind, lift, carries.
  rewrite (load_some _ _ _ Hr), Hk. cbn [py_get py_get_default].
  split; intros Hc; rewrite Hc; [reflexivity |].
  match goal with |- context [send ?c ?m ?p w] =>
    pose proof (send_world c m p w) as Hs; destruct (send c m p w) as [[resp | e] w']
  end; cbn in Hs; subst w'; cbn; [| now split].
  destruct (py_getitem resp "result"); cbn; now split.
Qed.

(** ** Properties of a remote object *)

Lemma world_eta w : mkWorld (heap w) (net w) (sent w) = w.
Proof. now destruct w. Qed.

Lemma carries_enumerable kv :
  truthy (dict_get kv "enumerable" PNone) = enumerable (PDict kv).
Proof. reflexivity. Qed.

Lemma enumerable_entries_cons (base : nat) (p : PyVal) (rest : list PyVal) :
  enumerable_entries base (p :: rest) =
    if enumerable p
    then (prop_name p, base) :: enumerable_entries (S base) rest
    else enumerable_entries base rest.
Proof.
  unfold enumerable_entries. cbn [List.filter]. now destruct (enumerable p).
Qed.

(** On well-formed entries the loop of [getProperties] returns the
    enumerable entries in order and allocates one handle for each. *)
Lemma getProperties_loop_run (context : ExecutionContext) (items : list PyVal) :
  forall (acc : Properties) w,
    Forall (fun p => wf_prop p = true) items ->
    getProperties_loop context items acc w =
      (Ok (acc ++ enumerable_entries (length (heap w)) items),
       mkWorld (heap w ++ (wrap context <$> List.filter enumerable items))
               (net w) (sent w)).
Proof.
  induction items as [| p rest IH]; intros acc w Hwf.
  { cbn. unfold ret, enumerable_entries. cbn. now rewrite !app_nil_r, world_eta. }
  apply Forall_cons_1 in Hwf as [Hp Hrest].
  unfold wf_prop in Hp. apply andb_true_iff in Hp as [Hd Hh].
  destruct p as [| | | | | | kv |]; try discriminate Hd.
  cbn [getProperties_loop]. unfold bind at 1, lift at 1.
  rewrite py_get_dict, carries_enumerable.
  rewrite enumerable_entries_cons. cbn [List.filter].
  destruct (enumerable (PDict kv)) eqn:He; cbn [negb].
  - unfold bind, lift, objectHandleFactory. rewrite !py_get_dict.
    cbn in Hh. rewrite Hh, (IH _ _ Hrest). cbn [heap net sent].
    rewrite length_app, fmap_cons, <- !app_assoc. cbn [length app prop_name].
    now rewrite Nat.add_1_r.
  - now rewrite (IH _ _ Hrest).
Qed.

(** The loop sends nothing. *)
Lemma getProperties_loop_quiet (context : ExecutionContext) (items : list PyVal) :
  forall (acc : Properties) w,
    sent (snd (getProperties_loop context items acc w)) = sent w
    /\ net (snd (getProperties_loop context items acc w)) = net w.
Proof.
  induction items as [| p rest IH]; intros acc w; [now split |].
  cbn [getProperties_loop]. unfold bind, lift.
  destruct (py_get p "enumerable") as [e |]; [| now split].
  destruct (truthy e); cbn [negb]; [| apply IH].
  destruct (py_get p "value") as [v |]; [| now split].
  unfold objectHandleFactory.
  destruct (py_get p "name") as [n |]; [| now split].
  destruct (hashable n); [| now split].
  match goal with |- context [getProperties_loop _ _ ?a ?w'] =>
    destruct (IH a w') as [-> ->] end.
  now split.
Qed.

(** [getProperties] sends one request, whatever the response. *)
Lemma getProperties_sent r h kv w :
  heap w !! r = Some h ->
  h_remoteObject h = PDict kv ->
  sent (snd (getProperties r w)) =
    sent w ++ [getProperties_request h (dict_get kv "objectId" (PStr EmptyString))].
Proof.
  intros Hr Hk. unfold getProperties, bind at 1. rewrite (load_some _ _ _ Hr).
  unfold bind at 1, lift at 1. rewrite Hk. cbn [py_get_default].
  unfold bind at 1.
  match goal with |- context [send ?c ?m ?p w] =>
    pose proof (send_world c m p w) as Hs; destruct (send c m p w) as [[resp | e] w']
  end; cbn in Hs; subst w'; [| reflexivity].
  unfold bind, lift.
  destruct (py_getitem resp "result") as [props |]; [| reflexivity].
  destruct (py_iter props) as [items |]; [| reflexivity].
  match goal with |- context [getProperties_loop ?c ?i ?a ?w'] =>
    destruct (getProperties_loop_quiet c i a w') as [-> _] end.
  reflexivity.
Qed.

(** [getProperties] on a well-formed response. *)
Lemma getProperties_run r h kv w resp n props items :
  heap w !! r = Some h ->
  h_remoteObject h = PDict kv ->
  client_send (h_client h) "Runtime.getProperties"
    (PDict [("objectId", dict_get kv "objectId" (PStr EmptyString)); ("ownProperties", PBool true)])
    (net w) = (Ok resp, n) ->
  py_getitem resp "result" = Ok props ->
  py_iter props = Ok items ->
  Forall (fun p => wf_prop p = true) items ->
  getProperties r w =
    (Ok (enumerable_entries (length (heap w)) items),
     mkWorld (heap w ++ (wrap (h_context h) <$> List.filter enumerable items)) n
             (sent w ++ [getProperties_request h (dict_get kv "objectId" (PStr EmptyString))])).
Proof.
  intros Hr Hk Hsend Hres Hiter Hwf.
  unfold getProperties, bind at 1. rewrite (load_some _ _ _ Hr).
  unfold bind at 1, lift at 1. rewrite Hk. cbn [py_get_default].
  unfold bind at 1, send. rewrite Hsend.
  unfold bind, lift. rewrite Hres, Hiter.
  now rewrite (getProperties_loop_run _ _ _ _ Hwf).
Qed.

(** The loop returns only on well-formed entries. *)
Lemma getProperties_loop_returns (context : ExecutionContext) (items : list PyVal) :
  forall (acc ps : Properties) w w',
    getProperties_loop context items acc w = (Ok ps, w') ->
    Forall (fun p => wf_prop p = true) items.
Proof.
  induction items as [| p rest IH]; intros acc ps w w'; [constructor |].
  cbn [getProperties_loop]. unfold bind, lift.
  destruct p as [| | | | | | kv |]; try discriminate.
  rewrite !py_get_dict, carries_enumerable.
  destruct (enumerable (PDict kv)) eqn:He; cbn [negb].
  - unfold objectHandleFactory.
    destruct (hashable (dict_get kv "name" PNone)) eqn:Hh; [| discriminate].
    intros H. constructor; [| exact (IH _ _ _ _ H)].
    unfold wf_prop. cbn [is_dict prop_name andb]. now rewrite He, Hh.
  - intros H. constructor; [| exact (IH _ _ _ _ H)].
    unfold wf_prop. cbn [is_dict andb]. now rewrite He.
Qed.

(** [getProperties] returns a mapping only when the descriptor is a
    dictionary, the session answers, and the response lists well-formed
    entries. *)
Lemma getProperties_returns r h w (ps : Properties) w' :
  heap w !! r = Some h ->
  getProperties r w = (Ok ps, w') ->
  exists kv resp n props items,
    h_remoteObject h = PDict kv
    /\ client_send (h_client h) "Runtime.getProperties"
         (PDict [("objectId", dict_get kv "objectId" (PStr EmptyString));
                 ("ownProperties", PBool true)])
         (net w) = (Ok resp, n)
    /\ py_getitem resp "result" = Ok props
    /\ py_iter props = Ok items
    /\ Forall (fun p => wf_prop p = true) items.
Proof.
  intros Hr. unfold getProperties, bind at 1. rewrite (load_some _ _ _ Hr).
  unfold bind at 1, lift at 1.
  destruct (h_remoteObject h) as [| | | | | | kv |]; try discriminate.
  cbn [py_get_default]. unfold bind at 1, send.
  destruct (client_send _ _ _ _) as [[resp | e] n] eqn:Hsend; [| discriminate].
  unfold bind, lift.
  destruct (py_getitem resp "result") as [props |] eqn:Hres; [| discriminate].
  destruct (py_iter props) as [items |] eqn:Hiter; [| discriminate].
  intros Hloop. exists kv, resp, n, props, items.
  repeat split; try reflexivity; try assumption.
  exact (getProperties_loop_returns _ _ _ _ _ _ Hloop).
Qed.

(** The entries bind the name of the [i]-th enumerable property to the
    [i]-th address from [base]. *)
Lemma enumerable_entries_In (base : nat) (items : list PyVal) (k : PyVal) (a : nat) :
  In (k, a) (enumerable_entries base items) <->
  exists i prop,
    List.filter enumerable items !! i = Some prop /\ k = prop_name prop /\ a = base + i.
Proof.
  unfold enumerable_entries. cbn zeta.
  generalize (List.filter enumerable items) as kept. intros kept. revert base.
  induction kept as [| p kept IH]; intros base; cbn.
  { split; [intros [] | intros (i & prop & H & _)]. destruct i; discriminate H. }
  rewrite IH. split.
  - intros [Heq | (i & prop & Hi & Hk & Ha)].
    + injection Heq as <- <-. exists 0, p. repeat split. lia.
    + exists (S i), prop. repeat split; [exact Hi | exact Hk | lia].
  - intros ([| i] & prop & Hi & Hk & Ha).
    + left. cbn in Hi. injection Hi as ->. subst. f_equal. lia.
    + right. exists i, prop. repeat split; [exact Hi | exact Hk | lia].
Qed.

Lemma filter_lookup_In (items : list PyVal) (i : nat) (prop : PyVal) :
  List.filter enumerable items !! i = Some prop ->
  In prop items /\ enumerable prop = true.
Proof.
  intros H. apply list_elem_of_lookup_2, list_elem_of_In in H.
  now apply List.filter_In in H.
Qed.

(** C9. For a response that lists well-formed properties, [getProperties]
    returns a mapping each of whose entries comes from a property the
    response marks enumerable: none comes from a property that is not. Each
    enumerable property has its entry, and the entry's handle is the one the
    factory of the owning context makes of the property's value
    descriptor. *)
Theorem getProperties_enumerable_only (r : nat) h kv w (resp : PyVal) (n : NetSt)
    (props : PyVal) (items : list PyVal) :
  heap w !! r = Some h ->
  h_remoteObject h = PDict kv ->
  client_send (h_client h) "Runtime.getProperties"
    (PDict [("objectId", dict_get kv "objectId" (PStr EmptyString)); ("ownProperties", PBool true)])
    (net w) = (Ok resp, n) ->
  py_getitem resp "result" = Ok props ->
  py_iter props = Ok items ->
  Forall (fun p => wf_prop p = true) items ->
  exists (ps : Properties) (w' : World),
    getProperties r w = (Ok ps, w')
    /\ (forall k a, In (k, a) ps ->
          exists prop,
            In prop items /\ enumerable prop = true /\ k = prop_name prop
            /\ heap w' !! a = Some (wrap (h_context h) prop))
    /\ (forall prop, In prop items -> enumerable prop = true ->
          exists a,
            In (prop_name prop, a) ps
            /\ heap w' !! a = Some (wrap (h_context h) prop)).
Proof.
  intros Hr Hk Hsend Hres Hiter Hwf.
  eexists _, _.
  split; [exact (getProperties_run _ _ _ _ _ _ _ _ Hr Hk Hsend Hres Hiter Hwf) |].
  cbn [heap].
  assert (Hcell : forall i prop,
            List.filter enumerable items !! i = Some prop ->
            (heap w ++ (wrap (h_context h) <$> List.filter enumerable items))
              !! (length (heap w) + i) = Some (wrap (h_context h) prop)).
  { intros i prop Hi. rewrite lookup_app_r by lia.
    replace (length (heap w) + i - length (heap w)) with i by lia.
    now rewrite list_lookup_fmap, Hi. }
  split.
  - intros k a Hin. apply enumerable_entries_In in Hin as (i & prop & Hi & -> & ->).
    exists prop. destruct (filter_lookup_In _ _ _ Hi) as [Hin He].
    repeat split; auto.
  - intros prop Hin He.
    assert (Hkept : In prop (List.filter enumerable items))
      by (apply List.filter_In; now split).
    apply list_elem_of_In, list_elem_of_lookup_1 in Hkept as [i Hi].
    exists (length (heap w) + i). split; [| now apply Hcell].
    apply enumerable_entries_In. now exists i, prop.
Qed.

(** C3, as the code has it. A handle whose descriptor has no [objectId]
    still sends its get-properties request, with the empty string for object
    id, and the mapping is built from the response: for a response that
    lists well-formed properties it holds the enumerable ones, and it is
    empty exactly when the response marks none enumerable. *)
Theorem getProperties_without_objectId (r : nat) h kv w :
  heap w !! r = Some h ->
  h_remoteObject h = PDict kv ->
  dict_lookup kv "objectId" = None ->
  sent (snd (getProperties r w)) = sent w ++ [getProperties_request h (PStr EmptyString)]
  /\ (forall (resp : PyVal) (n : NetSt) (props : PyVal) (items : list PyVal),
        client_send (h_client h) "Runtime.getProperties"
          (PDict [("objectId", PStr EmptyString); ("ownProperties", PBool true)])
          (net w) = (Ok resp, n) ->
        py_getitem resp "result" = Ok props ->
        py_iter props = Ok items ->
        Forall (fun p => wf_prop p = true) items ->
        fst (getProperties r w) = Ok (enumerable_entries (length (heap w)) items)
        /\ (enumerable_entries (length (heap w)) items = [] <->
            forall prop, In prop items -> enumerable prop = false)).
Proof.
  intros Hr Hk Hno.
  assert (Hid : dict_get kv "objectId" (PStr EmptyString) = PStr EmptyString)
    by (unfold dict_get; now rewrite Hno).
  split.
  - rewrite (getProperties_sent _ _ _ _ Hr Hk). now rewrite Hid.
  - intros resp n props items Hsend Hres Hiter Hwf. split.
    + rewrite <- Hid in Hsend.
      now rewrite (getProperties_run _ _ _ _ _ _ _ _ Hr Hk Hsend Hres Hiter Hwf).
    + split.
      * intros Hnil prop Hin. destruct (enumerable prop) eqn:He; [| reflexivity].
        assert (Hkept : In prop (List.filter enumerable items))
          by (apply List.filter_In; now split).
        apply list_elem_of_In, list_elem_of_lookup_1 in Hkept as [i Hi].
        assert (Hentry : In (prop_name prop, length (heap w) + i)
                            (enumerable_entries (length (heap w)) items))
          by (apply enumerable_entries_In; now exists i, prop).
        rewrite Hnil in Hentry. destruct Hentry.
      * intros Hnone. unfold enumerable_entries. cbn zeta.
        replace (List.filter enumerable items) with (@nil PyVal); [reflexivity |].
        symmetry. clear -Hnone.
        induction items as [| p rest IH]; [reflexivity |]. cbn.
        rewrite (Hnone p (or_introl eq_refl)). apply IH.
        intros q Hq. apply Hnone. now right.
Qed.

End Handles.

(** ** The disposed flag and the operations *)

Section Lifecycle.

Context {ext : Externals}.

Implicit Types (self : ExecutionContext) (w : World) (h : JSHandle).

Lemma load_set_flag r b h w :
  heap w !! r = Some h ->
  load r (set_flag r b w) = (Ok (set_disposed b h), set_flag r b w).
Proof.
  intros Hr. unfold load, set_flag. cbn [heap].
  now rewrite list_lookup_alter_eq, Hr.
Qed.

Lemma send_set_flag client method params r b w :
  send client method params (set_flag r b w) =
    (fst (send client method params w), set_flag r b (snd (send client method params w))).
Proof.
  unfold send, set_flag. cbn [heap net sent].
  now destruct (client_send client method params (net w)).
Qed.

Lemma factory_set_flag self (d : PyVal) r b w :
  r < length (heap w) ->
  objectHandleFactory self d (set_flag r b w) =
    (fst (objectHandleFactory self d w), set_flag r b (snd (objectHandleFactory self d w))).
Proof.
  intros Hlt. unfold objectHandleFactory, set_flag. cbn [heap net sent fst snd].
  now rewrite length_alter, alter_app_l.
Qed.

Lemma getProperties_loop_set_flag (context : ExecutionContext) (items : list PyVal)
    (r : nat) (b : bool) :
  forall (acc : Properties) w,
    r < length (heap w) ->
    getProperties_loop context items acc (set_flag r b w) =
      (fst (getProperties_loop context items acc w),
       set_flag r b (snd (getProperties_loop context items acc w))).
Proof.
  induction items as [| p rest IH]; intros acc w Hlt; [reflexivity |].
  cbn [getProperties_loop]. unfold bind, lift.
  destruct (py_get p "enumerable") as [e |]; [| reflexivity].
  destruct (truthy e); cbn [negb]; [| now apply IH].
  destruct (py_get p "value") as [v |]; [| reflexivity].
  rewrite (factory_set_flag _ _ _ _ _ Hlt).
  unfold objectHandleFactory. cbn [fst snd].
  destruct (py_get p "name") as [nm |]; [| reflexivity].
  destruct (hashable nm); [| reflexivity].
  apply IH. cbn [heap]. rewrite length_app. lia.
Qed.

(** [jsonValue] does not look at the flag. *)
Lemma jsonValue_set_flag r b h w :
  heap w !! r = Some h ->
  jsonValue r (set_flag r b w) = (fst (jsonValue r w), set_flag r b (snd (jsonValue r w))).
Proof.
  intros Hr. unfold jsonValue, bind, lift.
  rewrite (load_set_flag _ _ _ _ Hr), (load_some _ _ _ Hr).
  cbn [h_remoteObject h_client set_disposed].
  destruct (py_get (h_remoteObject h) "objectId") as [o |]; [| reflexivity].
  destruct (truthy o); [| reflexivity].
  rewrite send_set_flag.
  match goal with |- context [send ?c ?m ?p w] => destruct (send c m p w) as [[resp | e] w'] end;
    cbn [fst snd]; [| reflexivity].
  now destruct (py_getitem resp "result").
Qed.

(** Nor does [getProperties]. *)
Lemma getProperties_set_flag r b h w :
  heap w !! r = Some h ->
  getProperties r (set_flag r b w) =
    (fst (getProperties r w), set_flag r b (snd (getProperties r w))).
Proof.
  intros Hr. unfold getProperties, bind, lift.
  rewrite (load_set_flag _ _ _ _ Hr), (load_some _ _ _ Hr).
  cbn [h_remoteObject h_client h_context set_disposed].
  destruct (py_get_default (h_remoteObject h) "objectId" (PStr EmptyString)) as [o |];
    [| reflexivity].
  rewrite send_set_flag.
  match goal with |- context [send ?c ?m ?p w] =>
    pose proof (send_world c m p w) as Hs; destruct (send c m p w) as [[resp | e] w']
  end; cbn [fst snd] in *; [| reflexivity].
  destruct (py_getitem resp "result") as [props |]; [| reflexivity].
  destruct (py_iter props) as [items |]; [| reflexivity].
  apply getProperties_loop_set_flag. subst w'. cbn [heap].
  now apply lookup_lt_Some in Hr.
Qed.

Lemma ctx_ne_refl (c : ExecutionContext) : ctx_ne c c = false.
Proof. unfold ctx_ne. now rewrite Nat.eqb_refl. Qed.

(** C2, as the code has it. On a disposed handle [getProperty] raises the
    disposal error, from the encoding of the handle as an argument and with
    the world untouched. [jsonValue] and [getProperties] do not test the
    flag: whatever it is set to, they return the same result and leave the
    same world, the flag apart. *)
Theorem disposed_handle_operations (r : nat) h w :
  heap w !! r = Some h ->
  (h_disposed h = true ->
   forall propertyName,
     getProperty r propertyName w = (Raise (ElementHandleError msg_disposed), w))
  /\ (forall b,
        jsonValue r (set_flag r b w) =
          (fst (jsonValue r w), set_flag r b (snd (jsonValue r w))))
  /\ (forall b,
        getProperties r (set_flag r b w) =
          (fst (getProperties r w), set_flag r b (snd (getProperties r w)))).
Proof.
  intros Hr. split; [| split].
  - intros Hd propertyName.
    unfold getProperty, bind at 1. rewrite (load_some _ _ _ Hr).
    unfold bind at 1, evaluateHandle, bind at 1. cbn [mapM]. unfold bind at 1.
    rewrite convertArgument_disposed; [reflexivity | |].
    + unfold foreign. cbn. rewrite Hr. apply ctx_ne_refl.
    + unfold disposed_arg. cbn. now rewrite Hr.
  - intros b. now apply (jsonValue_set_flag r b h).
  - intros b. now apply (getProperties_set_flag r b h).
Qed.

(** *** [evaluate] *)

Lemma mapM_convert_world self (args : list PyVal) w :
  snd (mapM (_convertArgument self) args w) = w.
Proof.
  induction args as [| a rest IH]; [reflexivity |].
  cbn [mapM]. unfold bind at 1.
  pose proof (convertArgument_world self a w) as Ha.
  destruct (_convertArgument self a w) as [[v | e] w']; cbn in Ha; subst w';
    [| reflexivity].
  unfold bind. destruct (mapM (_convertArgument self) rest w) as [[vs | e] w'];
    cbn in IH; subst w'; reflexivity.
Qed.

(** A handle returned by [evaluateHandle] is new, live, and cost one
    call-function request. *)
Lemma evaluateHandle_ok self (pageFunction : string) (args : list PyVal) w r w1 :
  evaluateHandle self pageFunction args w = (Ok r, w1) ->
  exists (remoteObject : PyVal) (q : Request),
    r = length (heap w)
    /\ heap w1 = heap w ++ [mkJSHandle self (ec_client self) remoteObject false]
    /\ sent w1 = sent w ++ [q]
    /\ rq_method q = "Runtime.callFunctionOn".
Proof.
  unfold evaluateHandle, bind at 1.
  pose proof (mapM_convert_world self args w) as Hm.
  destruct (mapM (_convertArgument self) args w) as [[arguments | e] w0];
    cbn in Hm; subst w0; [| discriminate].
  unfold bind at 1.
  match goal with |- context [send ?c ?m ?p w] =>
    pose proof (send_world c m p w) as Hs; destruct (send c m p w) as [[_obj | e] w'];
    set (q := mkRequest c m p) in *
  end; cbn [snd] in Hs; subst w'; [| discriminate].
  unfold bind, lift.
  destruct (py_get _obj "exceptionDetails") as [details |]; [| discriminate].
  destruct (truthy details).
  { destruct (getExceptionMessage details); discriminate. }
  destruct (py_get _obj "result") as [remoteObject |]; [| discriminate].
  unfold objectHandleFactory. cbn [heap net sent].
  intros H. injection H as <- <-. exists remoteObject, q. now repeat split.
Qed.

(** [jsonValue] leaves the heap alone and sends no release request. *)
Lemma jsonValue_effect r w :
  heap (snd (jsonValue r w)) = heap w
  /\ release_requests (sent (snd (jsonValue r w))) = release_requests (sent w).
Proof.
  unfold jsonValue, bind, lift, load.
  destruct (heap w !! r) as [h |]; [| now split].
  destruct (py_get (h_remoteObject h) "objectId") as [o |]; [| now split].
  destruct (truthy o); [| now split].
  match goal with |- context [send ?c ?m ?p w] =>
    pose proof (send_world c m p w) as Hs; destruct (send c m p w) as [[resp | e] w']
  end; cbn [snd] in Hs; subst w'.
  - destruct (py_getitem resp "result"); cbn [snd heap sent];
      rewrite release_requests_app; cbn; (split; [reflexivity | lia]).
  - cbn [snd heap sent]. rewrite release_requests_app; cbn. split; [reflexivity | lia].
Qed.

(** C1, as the code has it. [evaluate] disposes the handle it got from
    [evaluateHandle] once [jsonValue] has returned: the handle is then
    disposed whatever the release does. When [jsonValue] raises, the
    exception leaves [evaluate] at once: the world is the one [jsonValue]
    left, the handle is not disposed and no release request was sent. *)
Theorem evaluate_disposes_after_jsonValue self (pageFunction : string)
    (args : list PyVal) w (r : nat) (w1 : World) :
  evaluateHandle self pageFunction args w = (Ok r, w1) ->
  (forall (v : PyVal) (w2 : World),
     jsonValue r w1 = (Ok v, w2) ->
     evaluate self pageFunction args w =
       (match fst (dispose r w2) with
        | Ok _ => Ok v
        | Raise e => Raise e
        end, snd (dispose r w2))
     /\ disposed_at (snd (dispose r w2)) r = Some true)
  /\ (forall (e : Exn) (w2 : World),
        jsonValue r w1 = (Raise e, w2) ->
        evaluate self pageFunction args w = (Raise e, w2)
        /\ disposed_at w2 r = Some false
        /\ release_requests (sent w2) = release_requests (sent w)).
Proof.
  intros Heval.
  destruct (evaluateHandle_ok _ _ _ _ _ _ Heval) as (ro & q & -> & Hheap & Hsent & Hq).
  assert (Hcell : heap w1 !! length (heap w) =
                  Some (mkJSHandle self (ec_client self) ro false)).
  { rewrite Hheap. now apply list_lookup_middle. }
  split.
  - intros v w2 Hjson.
    pose proof (jsonValue_effect (length (heap w)) w1) as [Hh _].
    rewrite Hjson in Hh. cbn [snd] in Hh.
    split.
    + unfold evaluate, bind at 1. rewrite Heval. unfold bind at 1. rewrite Hjson.
      unfold bind, ret. now destruct (dispose (length (heap w)) w2) as [[[] | e] w3].
    + apply (dispose_sets_flag _ (mkJSHandle self (ec_client self) ro false)).
      now rewrite Hh.
  - intros e w2 Hjson.
    pose proof (jsonValue_effect (length (heap w)) w1) as [Hh Hrel].
    rewrite Hjson in Hh, Hrel. cbn [snd] in Hh, Hrel.
    split; [| split].
    + unfold evaluate, bind at 1. rewrite Heval. unfold bind at 1. now rewrite Hjson.
    + unfold disposed_at. now rewrite Hh, Hcell.
    + rewrite Hrel, Hsent, release_requests_app.
      unfold release_requests at 2. cbn [List.filter]. unfold is_release.
      rewrite Hq. cbn. lia.
Qed.

End Lifecycle.

(** ** What every operation keeps *)

Section Keeping.

Context {ext : Externals}.

Implicit Types (self : ExecutionContext) (w : World) (h : JSHandle).

Lemma handle_kept_refl h : handle_kept h h.
Proof. now repeat split. Qed.

Lemma handle_kept_trans h1 h2 h3 :
  handle_kept h1 h2 -> handle_kept h2 h3 -> handle_kept h1 h3.
Proof.
  intros (Hc & Hl & Hr & Hd) (Hc' & Hl' & Hr' & Hd').
  repeat split; try congruence. auto.
Qed.

Lemma world_le_refl w : world_le w w.
Proof.
  split.
  - intros r h Hr. exists h. split; [exact Hr | apply handle_kept_refl].
  - exists []. now rewrite app_nil_r.
Qed.

Lemma world_le_trans w1 w2 w3 : world_le w1 w2 -> world_le w2 w3 -> world_le w1 w3.
Proof.
  intros [Hh [l Hl]] [Hh' [l' Hl']]. split.
  - intros r h Hr. destruct (Hh r h Hr) as (h2 & Hr2 & Hk).
    destruct (Hh' r h2 Hr2) as (h3 & Hr3 & Hk').
    exists h3. split; [exact Hr3 | exact (handle_kept_trans _ _ _ Hk Hk')].
  - exists (l ++ l'). now rewrite Hl', Hl, app_assoc.
Qed.

Lemma preserves_ret {A} (a : A) : preserves (ret a).
Proof. intros w. apply world_le_refl. Qed.

Lemma preserves_raise {A} (e : Exn) : preserves (@raise _ A e).
Proof. intros w. apply world_le_refl. Qed.

Lemma preserves_lift {A} (x : result A) : preserves (lift x).
Proof. intros w. apply world_le_refl. Qed.

Lemma preserves_load (r : nat) : preserves (load r).
Proof. intros w. unfold load. destruct (heap w !! r); apply world_le_refl. Qed.

Lemma preserves_bind {A B} (m : M A) (k : A -> M B) :
  preserves m -> (forall a, preserves (k a)) -> preserves (bind m k).
Proof.
  intros Hm Hk w. unfold bind. specialize (Hm w).
  destruct (m w) as [[a | e] w']; cbn [snd] in *; [| exact Hm].
  exact (world_le_trans _ _ _ Hm (Hk a w')).
Qed.

Lemma preserves_send client method params : preserves (send client method params).
Proof.
  intros w. rewrite send_world. split.
  - intros r h Hr. exists h. split; [exact Hr | apply handle_kept_refl].
  - now eexists.
Qed.

Lemma preserves_factory self (d : PyVal) : preserves (objectHandleFactory self d).
Proof.
  intros w. unfold objectHandleFactory. cbn [snd]. split.
  - intros r h Hr. exists h. split; [| apply handle_kept_refl].
    cbn [heap]. now apply lookup_app_l_Some.
  - exists []. cbn [sent]. now rewrite app_nil_r.
Qed.

(** Setting the flag keeps every handle; clearing it would not. *)
Lemma preserves_store_true (r : nat) : preserves (store_disposed r true).
Proof.
  intros w. unfold store_disposed.
  destruct (heap w !! r) as [h0 |] eqn:Hr0; [| apply world_le_refl].
  cbn [snd]. split.
  - intros r' h Hr. unfold set_flag. cbn [heap].
    destruct (decide (r = r')) as [<- | Hne].
    + rewrite list_lookup_alter_eq, Hr. cbn. eexists. split; [reflexivity |].
      now repeat split.
    + rewrite list_lookup_alter_ne by exact Hne.
      exists h. split; [exact Hr | apply handle_kept_refl].
  - exists []. cbn [set_flag sent]. now rewrite app_nil_r.
Qed.

Lemma preserves_releaseObject client (d : PyVal) : preserves (releaseObject client d).
Proof.
  intros w. unfold releaseObject.
  destruct (py_get d "objectId") as [o | e]; [| apply world_le_refl].
  pose proof (preserves_send client "Runtime.releaseObject" (PDict [("objectId", o)]) w)
    as Hs.
  destruct (send client "Runtime.releaseObject" (PDict [("objectId", o)]) w)
    as [[x | e] w']; cbn [snd] in *; [exact Hs |].
  now destruct (object_gone e).
Qed.

Lemma preserves_mapM {A B} (f : A -> M B) (l : list A) :
  (forall a, preserves (f a)) -> preserves (mapM f l).
Proof.
  intros Hf. induction l as [| a rest IH]; cbn [mapM].
  - apply preserves_ret.
  - apply preserves_bind; [apply Hf | intros b].
    apply preserves_bind; [exact IH | intros bs]. apply preserves_ret.
Qed.

(** One step of a proof that a computation keeps the world: the monad's
    own operations by their lemmas, a branch by cases. *)
Ltac keep_step :=
  first
    [ apply preserves_ret | apply preserves_raise | apply preserves_lift
    | apply preserves_load | apply preserves_send | apply preserves_factory
    | apply preserves_store_true | apply preserves_releaseObject
    | apply preserves_bind; [| intros ?]
    | match goal with
      | |- preserves (if ?b then _ else _) => destruct b
      | |- preserves (match ?x with _ => _ end) => destruct x
      end ].

Lemma preserves_convertArgument self (arg : PyVal) : preserves (_convertArgument self arg).
Proof. unfold _convertArgument. repeat keep_step. Qed.

Lemma preserves_evaluateHandle self (pageFunction : string) (args : list PyVal) :
  preserves (evaluateHandle self pageFunction args).
Proof.
  unfold evaluateHandle.
  apply preserves_bind; [apply preserves_mapM, preserves_convertArgument | intros ?].
  repeat keep_step.
Qed.

Lemma preserves_loop (context : ExecutionContext) (items : list PyVal) :
  forall acc : Properties, preserves (getProperties_loop context items acc).
Proof.
  induction items as [| p rest IH]; intros acc; cbn [getProperties_loop].
  - apply preserves_ret.
  - repeat first [apply IH | keep_step].
Qed.

Lemma preserves_getProperties (r : nat) : preserves (getProperties r).
Proof. unfold getProperties. repeat first [apply preserves_loop | keep_step]. Qed.

Lemma preserves_dispose (r : nat) : preserves (dispose r).
Proof. unfold dispose. repeat keep_step. Qed.

Lemma preserves_jsonValue (r : nat) : preserves (jsonValue r).
Proof. unfold jsonValue. repeat keep_step. Qed.

(** No method takes a handle away, moves it, rebinds it to another context
    or client, changes its descriptor, or clears its [_disposed] flag; and
    none erases a request from those sent. *)
Theorem operations_keep_handles :
  (forall self pageFunction args, preserves (evaluate self pageFunction args))
  /\ (forall self pageFunction args, preserves (evaluateHandle self pageFunction args))
  /\ (forall self arg, preserves (_convertArgument self arg))
  /\ (forall self prototypeHandle, preserves (queryObject self prototypeHandle))
  /\ (forall r propertyName, preserves (getProperty r propertyName))
  /\ (forall r, preserves (getProperties r))
  /\ (forall r, preserves (jsonValue r))
  /\ (forall r, preserves (asElement r))
  /\ (forall r, preserves (dispose r))
  /\ (forall r, preserves (toString r)).
Proof.
  repeat match goal with |- _ /\ _ => split end; intros.
  - unfold evaluate.
    repeat first [apply preserves_evaluateHandle | apply preserves_jsonValue
                 | apply preserves_dispose | keep_step].
  - apply preserves_evaluateHandle.
  - apply preserves_convertArgument.
  - unfold queryObject. repeat keep_step.
  - unfold getProperty.
    repeat first [apply preserves_evaluateHandle | apply preserves_getProperties
                 | apply preserves_dispose | keep_step].
  - apply preserves_getProperties.
  - apply preserves_jsonValue.
  - apply preserves_ret.
  - apply preserves_dispose.
  - unfold toString. repeat keep_step.
Qed.

End Keeping.

(** ** Which operations release *)

Section Releasing.

Context {ext : Externals}.

Implicit Types (self : ExecutionContext) (w : World) (h : JSHandle).

Lemma quiet_ret {A} (a : A) : releases_nothing (ret a).
Proof. now intros w. Qed.

Lemma quiet_raise {A} (e : Exn) : releases_nothing (@raise _ A e).
Proof. now intros w. Qed.

Lemma quiet_lift {A} (x : result A) : releases_nothing (lift x).
Proof. now intros w. Qed.

Lemma quiet_load (r : nat) : releases_nothing (load r).
Proof. intros w. unfold load. now destruct (heap w !! r). Qed.

Lemma quiet_bind {A B} (m : M A) (k : A -> M B) :
  releases_nothing m -> (forall a, releases_nothing (k a)) -> releases_nothing (bind m k).
Proof.
  intros Hm Hk w. unfold bind. specialize (Hm w).
  destruct (m w) as [[a | e] w']; cbn [snd] in *; [| exact Hm].
  now rewrite Hk.
Qed.

(** A request of another method than the release adds nothing to the
    releases. *)
Lemma quiet_send client (method : string) params :
  String.eqb method "Runtime.releaseObject" = false ->
  releases_nothing (send client method params).
Proof.
  intros Hm w. rewrite send_world. cbn [sent]. rewrite release_requests_app.
  unfold release_requests at 2. cbn [List.filter]. unfold is_release. cbn [rq_method].
  rewrite Hm. cbn. lia.
Qed.

Lemma quiet_factory self (d : PyVal) : releases_nothing (objectHandleFactory self d).
Proof. now intros w. Qed.

Lemma quiet_mapM {A B} (f : A -> M B) (l : list A) :
  (forall a, releases_nothing (f a)) -> releases_nothing (mapM f l).
Proof.
  intros Hf. induction l as [| a rest IH]; cbn [mapM].
  - apply quiet_ret.
  - apply quiet_bind; [apply Hf | intros b].
    apply quiet_bind; [exact IH | intros bs]. apply quiet_ret.
Qed.

Ltac quiet_step :=
  first
    [ apply quiet_ret | apply quiet_raise | apply quiet_lift | apply quiet_load
    | apply quiet_factory | apply quiet_send; reflexivity
    | apply quiet_bind; [| intros ?]
    | match goal with
      | |- releases_nothing (if ?b then _ else _) => destruct b
      | |- releases_nothing (match ?x with _ => _ end) => destruct x
      end ].

Lemma quiet_convertArgument self (arg : PyVal) : releases_nothing (_convertArgument self arg).
Proof. unfold _convertArgument. repeat quiet_step. Qed.

Lemma quiet_loop (context : ExecutionContext) (items : list PyVal) :
  forall acc : Properties, releases_nothing (getProperties_loop context items acc).
Proof.
  induction items as [| p rest IH]; intros acc; cbn [getProperties_loop].
  - apply quiet_ret.
  - repeat first [apply IH | quiet_step].
Qed.

Lemma quiet_evaluateHandle self (pageFunction : string) (args : list PyVal) :
  releases_nothing (evaluateHandle self pageFunction args).
Proof.
  unfold evaluateHandle.
  apply quiet_bind; [apply quiet_mapM, quiet_convertArgument | intros ?].
  repeat quiet_step.
Qed.

Lemma quiet_getProperties (r : nat) : releases_nothing (getProperties r).
Proof. unfold getProperties. repeat first [apply quiet_loop | quiet_step]. Qed.

(** Release requests come from [dispose] alone, and so from [evaluate] and
    [getProperty], which call it: no other method adds a release request to
    those sent. *)
Theorem only_dispose_releases :
  (forall self pageFunction args, releases_nothing (evaluateHandle self pageFunction args))
  /\ (forall self arg, releases_nothing (_convertArgument self arg))
  /\ (forall self prototypeHandle, releases_nothing (queryObject self prototypeHandle))
  /\ (forall r, releases_nothing (getProperties r))
  /\ (forall r, releases_nothing (jsonValue r))
  /\ (forall r, releases_nothing (asElement r))
  /\ (forall r, releases_nothing (toString r)).
Proof.
  repeat match goal with |- _ /\ _ => split end; intros.
  - apply quiet_evaluateHandle.
  - apply quiet_convertArgument.
  - unfold queryObject. repeat quiet_step.
  - apply quiet_getProperties.
  - unfold jsonValue. repeat quiet_step.
  - apply quiet_ret.
  - unfold toString. repeat quiet_step.
Qed.

End Releasing.

(** ** The outcomes of the context's operations *)

Section Outcomes.

Context {ext : Externals}.

Implicit Types (self : ExecutionContext) (w : World) (h : JSHandle).

Lemma send_answer client method params w :
  send client method params w =
    (fst (answer (mkRequest client method params) w),
     mkWorld (heap w) (snd (answer (mkRequest client method params) w))
             (sent w ++ [mkRequest client method params])).
Proof. unfold send, answer. cbn. now destruct (client_send _ _ _ _). Qed.

Lemma after_nil (q : Request) w :
  after q [] w = mkWorld (heap w) (snd (answer q w)) (sent w ++ [q]).
Proof. unfold after. now rewrite app_nil_r. Qed.

(** The list of arguments is encoded from left to right, each argument in
    the world as it was. *)
Lemma mapM_convert_Forall2 self (args vs : list PyVal) w :
  Forall2 (fun a v => _convertArgument self a w = (Ok v, w)) args vs ->
  mapM (_convertArgument self) args w = (Ok vs, w).
Proof.
  induction 1 as [| a v args vs Ha _ IH]; [reflexivity |].
  cbn [mapM]. unfold bind at 1. rewrite Ha. unfold bind at 1. now rewrite IH.
Qed.

Lemma mapM_convert_inv self (args : list PyVal) :
  forall (vs : list PyVal) w w',
    mapM (_convertArgument self) args w = (Ok vs, w') ->
    w' = w /\ Forall2 (fun a v => _convertArgument self a w = (Ok v, w)) args vs.
Proof.
  induction args as [| a rest IH]; intros vs w w'; cbn [mapM].
  { unfold ret. intros H. injection H as <- <-. now split. }
  unfold bind at 1.
  pose proof (convertArgument_world self a w) as Ha.
  destruct (_convertArgument self a w) as [[v | e] w0] eqn:Hv; cbn in Ha; subst w0;
    [| discriminate].
  unfold bind at 1.
  destruct (mapM (_convertArgument self) rest w) as [[vs' | e] w0] eqn:Hm;
    [| discriminate].
  destruct (IH _ _ _ Hm) as [-> Hall].
  unfold ret. intros H. injection H as <- <-. split; [reflexivity |].
  now constructor.
Qed.

(** When the call fails on the remote side, [evaluateHandle] raises and no
    handle is made. An exception of the session passes unchanged; exception
    details in the response become an [ElementHandleError] whose message is
    that of [helper.getExceptionMessage] after "Evaluation failed: ". In
    both cases the request was sent, with the arguments encoded in order. *)
Theorem evaluateHandle_fails_without_handle self (pageFunction : string)
    (args vs : list PyVal) w :
  Forall2 (fun a v => _convertArgument self a w = (Ok v, w)) args vs ->
  (forall e,
     fst (answer (evaluateHandle_request self pageFunction vs) w) = Raise e ->
     evaluateHandle self pageFunction args w =
       (Raise e, after (evaluateHandle_request self pageFunction vs) [] w))
  /\ (forall kv m,
        fst (answer (evaluateHandle_request self pageFunction vs) w) = Ok (PDict kv) ->
        carries kv "exceptionDetails" = true ->
        getExceptionMessage (dict_get kv "exceptionDetails" PNone) = Ok m ->
        evaluateHandle self pageFunction args w =
          (Raise (ElementHandleError (String.append "Evaluation failed: " m)),
           after (evaluateHandle_request self pageFunction vs) [] w)).
Proof.
  intros Hargs. apply mapM_convert_Forall2 in Hargs.
  split.
  - intros e He. unfold evaluateHandle, bind at 1. rewrite Hargs.
    unfold bind at 1. rewrite send_answer.
    fold (evaluateHandle_request self pageFunction vs). rewrite He.
    now rewrite after_nil.
  - intros kv m Hkv Hex Hm. unfold evaluateHandle, bind at 1. rewrite Hargs.
    unfold bind at 1. rewrite send_answer.
    fold (evaluateHandle_request self pageFunction vs). rewrite Hkv.
    unfold bind, lift, raise. rewrite py_get_dict.
    unfold carries in Hex. rewrite Hex, Hm. now rewrite after_nil.
Qed.

(** When the response carries no exception details, [evaluateHandle] returns
    a new handle, at the first free address: it is live, bound to this
    context and its client, and its descriptor is the [result] of the
    response ([None] when the response has none). Exactly one request was
    sent, asking for a reference ([returnByValue] false), and the handles
    already there are as they were. *)
Theorem evaluateHandle_returns_new_handle self (pageFunction : string)
    (args vs : list PyVal) w (kv : list (string * PyVal)) :
  Forall2 (fun a v => _convertArgument self a w = (Ok v, w)) args vs ->
  fst (answer (evaluateHandle_request self pageFunction vs) w) = Ok (PDict kv) ->
  carries kv "exceptionDetails" = false ->
  evaluateHandle self pageFunction args w =
    (Ok (length (heap w)),
     after (evaluateHandle_request self pageFunction vs)
           [mkJSHandle self (ec_client self) (dict_get kv "result" PNone) false] w).
Proof.
  intros Hargs Hkv Hex. apply mapM_convert_Forall2 in Hargs.
  unfold evaluateHandle, bind at 1. rewrite Hargs.
  unfold bind at 1. rewrite send_answer.
  fold (evaluateHandle_request self pageFunction vs). rewrite Hkv.
  unfold bind, lift. rewrite !py_get_dict.
  unfold carries in Hex. now rewrite Hex.
Qed.

(** Whenever [evaluateHandle] returns, the handle is new (its address was
    free), live and bound to the calling context, and the one request sent
    holds one encoded entry for each argument, in the order of the
    arguments. *)
Theorem evaluateHandle_handle_is_new self (pageFunction : string)
    (args : list PyVal) w (r : nat) (w1 : World) :
  evaluateHandle self pageFunction args w = (Ok r, w1) ->
  heap w !! r = None
  /\ (exists d, heap w1 !! r = Some (mkJSHandle self (ec_client self) d false))
  /\ length (heap w1) = S (length (heap w))
  /\ exists vs,
       Forall2 (fun a v => _convertArgument self a w = (Ok v, w)) args vs
       /\ sent w1 = sent w ++ [evaluateHandle_request self pageFunction vs].
Proof.
  unfold evaluateHandle, bind at 1.
  destruct (mapM (_convertArgument self) args w) as [[vs | e] w0] eqn:Hm;
    [| discriminate].
  destruct (mapM_convert_inv _ _ _ _ _ Hm) as [-> Hall].
  unfold bind at 1. rewrite send_answer.
  fold (evaluateHandle_request self pageFunction vs).
  destruct (fst (answer (evaluateHandle_request self pageFunction vs) w))
    as [_obj | e]; [| discriminate].
  unfold bind, lift.
  destruct (py_get _obj "exceptionDetails") as [details |]; [| discriminate].
  destruct (truthy details).
  { destruct (getExceptionMessage details); discriminate. }
  destruct (py_get _obj "result") as [d |]; [| discriminate].
  unfold objectHandleFactory. cbn [heap net sent].
  intros H. injection H as <- <-. cbn [heap sent].
  split; [now apply lookup_ge_None |].
  split; [exists d; now apply list_lookup_middle |].
  split; [rewrite length_app; cbn; lia |].
  now exists vs.
Qed.

(** *** Handles and the context that made them *)

Lemma heap_cell_dict w (r : nat) h :
  heap w !! r = Some h -> is_dict (h_remoteObject h) = true -> wf_arg w (PHandle r) = true.
Proof. intros Hr Hd. cbn. now rewrite Hr. Qed.

Lemma ctx_ne_addr (a b : ExecutionContext) :
  ec_addr a <> ec_addr b -> ctx_ne a b = true.
Proof. intros H. unfold ctx_ne. now apply negb_true_iff, Nat.eqb_neq. Qed.

(** A handle that [evaluateHandle] returned is bound to the context that
    made it. Any other context refuses it as an argument, with the error of
    the context check; the context that made it accepts it, as long as its
    descriptor is a dictionary. *)
Theorem handle_bound_to_its_context self (pageFunction : string) (args : list PyVal)
    w (r : nat) (w1 : World) :
  evaluateHandle self pageFunction args w = (Ok r, w1) ->
  (forall other,
     ec_addr other <> ec_addr self ->
     _convertArgument other (PHandle r) w1 =
       (Raise (ElementHandleError msg_other_context), w1))
  /\ (forall h1,
        heap w1 !! r = Some h1 ->
        is_dict (h_remoteObject h1) = true ->
        exists v, _convertArgument self (PHandle r) w1 = (Ok v, w1)).
Proof.
  intros Heval.
  destruct (evaluateHandle_ok _ _ _ _ _ _ Heval) as (d & q & -> & Hheap & _ & _).
  assert (Hcell : heap w1 !! length (heap w) = Some (mkJSHandle self (ec_client self) d false)).
  { rewrite Hheap. now apply list_lookup_middle. }
  split.
  - intros other Hne. apply convertArgument_foreign.
    unfold foreign. cbn [handle_of]. rewrite Hcell. cbn [h_context].
    apply ctx_ne_addr. congruence.
  - intros h1 Hr Hd. rewrite Hcell in Hr. injection Hr as <-.
    apply convertArgument_accepts.
    + now apply (heap_cell_dict _ _ _ Hcell).
    + unfold foreign. cbn [handle_of]. rewrite Hcell. apply ctx_ne_refl.
    + unfold disposed_arg. cbn [handle_of]. now rewrite Hcell.
Qed.

(** *** After [dispose] *)

Lemma getProperty_disposed (r : nat) h (propertyName : string) w :
  heap w !! r = Some h -> h_disposed h = true ->
  getProperty r propertyName w = (Raise (ElementHandleError msg_disposed), w).
Proof.
  intros Hr Hd. unfold getProperty, bind at 1. rewrite (load_some _ _ _ Hr).
  unfold bind at 1, evaluateHandle, bind at 1. cbn [mapM]. unfold bind at 1.
  rewrite convertArgument_disposed; [reflexivity | |].
  - unfold foreign. cbn. rewrite Hr. apply ctx_ne_refl.
  - unfold disposed_arg. cbn. now rewrite Hr.
Qed.

Lemma queryObject_disposed self (r : nat) h w :
  heap w !! r = Some h -> h_disposed h = true ->
  queryObject self r w = (Raise (ElementHandleError msg_prototype_disposed), w).
Proof.
  intros Hr Hd. unfold queryObject, bind. now rewrite (load_some _ _ _ Hr), Hd.
Qed.

(** Once [dispose] has run on a handle, whatever the release did, the
    handle is refused wherever it is given as an argument: [evaluateHandle]
    of any context raises before sending, [getProperty] on it raises the
    disposal error, and [queryObject] with it as prototype raises its own
    disposal error. The world is untouched each time. *)
Theorem no_use_after_dispose (r : nat) h w :
  heap w !! r = Some h ->
  let w1 := snd (dispose r w) in
  (forall self pageFunction args,
     In (PHandle r) args ->
     Forall (fun a => wf_arg w1 a = true) args ->
     exists e,
       evaluateHandle self pageFunction args w1 = (Raise e, w1)
       /\ (e = ElementHandleError msg_other_context
           \/ e = ElementHandleError msg_disposed))
  /\ (forall propertyName,
        getProperty r propertyName w1 = (Raise (ElementHandleError msg_disposed), w1))
  /\ (forall self,
        queryObject self r w1 = (Raise (ElementHandleError msg_prototype_disposed), w1)).
Proof.
  intros Hr w1.
  pose proof (dispose_sets_flag r h w Hr) as Hflag. fold w1 in Hflag.
  unfold disposed_at in Hflag.
  destruct (heap w1 !! r) as [h1 |] eqn:Hr1; [| discriminate].
  cbn in Hflag. injection Hflag as Hd.
  split; [| split].
  - intros self pageFunction args Hin Hwf.
    destruct (mapM_convert_rejects self w1 args Hwf) as (e & Hrun & Hkind & _).
    { exists (PHandle r). split; [exact Hin | right].
      unfold disposed_arg. cbn [handle_of]. now rewrite Hr1. }
    exists e. split; [| exact Hkind].
    unfold evaluateHandle, bind at 1. now rewrite Hrun.
  - intros propertyName. now apply (getProperty_disposed r h1).
  - intros self. now apply (queryObject_disposed self r h1).
Qed.

(** *** [queryObject] *)

Lemma carries_lookup (kv : list (string * PyVal)) (k : string) :
  carries kv k = true -> dict_lookup kv k = Some (dict_get kv k PNone).
Proof.
  unfold carries, dict_get. now destruct (dict_lookup kv k).
Qed.

(** On a live prototype handle that carries an [objectId], [queryObject]
    sends one request for that object on the client of the calling context.
    It does not look at the context of the prototype handle. An exception
    of the session passes unchanged and no handle is made; otherwise the
    result is a new live handle, bound to the calling context, on the
    [objects] of the response. *)
Theorem queryObject_outcome self (r : nat) h (kv : list (string * PyVal)) w :
  heap w !! r = Some h ->
  h_disposed h = false ->
  h_remoteObject h = PDict kv ->
  carries kv "objectId" = true ->
  (forall e,
     fst (answer (queryObject_request self (dict_get kv "objectId" PNone)) w) = Raise e ->
     queryObject self r w =
       (Raise e, after (queryObject_request self (dict_get kv "objectId" PNone)) [] w))
  /\ (forall rkv,
        fst (answer (queryObject_request self (dict_get kv "objectId" PNone)) w)
          = Ok (PDict rkv) ->
        queryObject self r w =
          (Ok (length (heap w)),
           after (queryObject_request self (dict_get kv "objectId" PNone))
                 [mkJSHandle self (ec_client self) (dict_get rkv "objects" PNone) false] w)).
Proof.
  intros Hr Hd Hk Hc.
  assert (Hrun : queryObject self r w =
                 bind (send (ec_client self) "Runtime.queryObject"
                         (PDict [("prototypeObjectId", dict_get kv "objectId" PNone)]))
                      (fun response =>
                         bind (lift (py_get response "objects"))
                              (fun objects => objectHandleFactory self objects)) w).
  { unfold queryObject, bind at 1. rewrite (load_some _ _ _ Hr), Hd.
    unfold bind at 1, lift at 1. rewrite Hk, py_get_dict.
    unfold carries in Hc. rewrite Hc. cbn [negb].
    unfold bind at 1, lift at 1. cbn [py_getitem].
    now rewrite (carries_lookup kv "objectId" Hc). }
  split.
  - intros e He. rewrite Hrun. unfold bind at 1. rewrite send_answer.
    fold (queryObject_request self (dict_get kv "objectId" PNone)).
    rewrite He. now rewrite after_nil.
  - intros rkv Hkv. rewrite Hrun. unfold bind at 1. rewrite send_answer.
    fold (queryObject_request self (dict_get kv "objectId" PNone)).
    rewrite Hkv. unfold bind, lift. now rewrite py_get_dict.
Qed.

(** *** [jsonValue] and [getProperties] on the answers of the session *)

(** On a handle that carries an [objectId], [jsonValue] is decided by the
    answer to its one request: an exception of the session passes
    unchanged, a response without [result] raises [KeyError], and otherwise
    the value is what [helper.valueFromRemoteObject] makes of the [result],
    not of the handle's own descriptor. *)
Theorem jsonValue_outcome (r : nat) h (kv : list (string * PyVal)) w :
  heap w !! r = Some h ->
  h_remoteObject h = PDict kv ->
  carries kv "objectId" = true ->
  (forall e,
     fst (answer (jsonValue_request h (dict_get kv "objectId" PNone)) w) = Raise e ->
     jsonValue r w =
       (Raise e, after (jsonValue_request h (dict_get kv "objectId" PNone)) [] w))
  /\ (forall rkv,
        fst (answer (jsonValue_request h (dict_get kv "objectId" PNone)) w)
          = Ok (PDict rkv) ->
        dict_lookup rkv "result" = None ->
        jsonValue r w =
          (Raise (KeyError "result"),
           after (jsonValue_request h (dict_get kv "objectId" PNone)) [] w))
  /\ (forall rkv v,
        fst (answer (jsonValue_request h (dict_get kv "objectId" PNone)) w)
          = Ok (PDict rkv) ->
        dict_lookup rkv "result" = Some v ->
        jsonValue r w =
          (valueFromRemoteObject v,
           after (jsonValue_request h (dict_get kv "objectId" PNone)) [] w)).
Proof.
  intros Hr Hk Hc.
  assert (Hrun : jsonValue r w =
                 bind (send (h_client h) "Runtime.callFunctionOn"
                         (rq_params (jsonValue_request h (dict_get kv "objectId" PNone))))
                      (fun response =>
                         bind (lift (py_getitem response "result"))
                              (fun x => lift (valueFromRemoteObject x))) w).
  { unfold jsonValue, bind at 1. rewrite (load_some _ _ _ Hr).
    unfold bind at 1, lift at 1. rewrite Hk, py_get_dict.
    unfold carries in Hc. now rewrite Hc. }
  repeat match goal with |- _ /\ _ => split end.
  - intros e He. rewrite Hrun. unfold bind at 1. rewrite send_answer.
    change (mkRequest (h_client h) "Runtime.callFunctionOn" _)
      with (jsonValue_request h (dict_get kv "objectId" PNone)).
    rewrite He. now rewrite after_nil.
  - intros rkv Hkv Hno. rewrite Hrun. unfold bind at 1. rewrite send_answer.
    change (mkRequest (h_client h) "Runtime.callFunctionOn" _)
      with (jsonValue_request h (dict_get kv "objectId" PNone)).
    rewrite Hkv. unfold bind, lift. cbn [py_getitem]. rewrite Hno.
    now rewrite after_nil.
  - intros rkv v Hkv Hv. rewrite Hrun. unfold bind at 1. rewrite send_answer.
    change (mkRequest (h_client h) "Runtime.callFunctionOn" _)
      with (jsonValue_request h (dict_get kv "objectId" PNone)).
    rewrite Hkv. unfold bind, lift. cbn [py_getitem]. rewrite Hv.
    now rewrite after_nil.
Qed.

(** When the get-properties exchange fails, [getProperties] raises and makes
    no handle: an exception of the session passes unchanged, a response
    without [result] raises [KeyError], and a [result] that cannot be
    iterated raises [TypeError]. *)
Theorem getProperties_fails_without_handle (r : nat) h (kv : list (string * PyVal)) w :
  heap w !! r = Some h ->
  h_remoteObject h = PDict kv ->
  (forall e,
     fst (answer (getProperties_request h (dict_get kv "objectId" (PStr EmptyString))) w)
       = Raise e ->
     getProperties r w =
       (Raise e,
        after (getProperties_request h (dict_get kv "objectId" (PStr EmptyString))) [] w))
  /\ (forall rkv,
        fst (answer (getProperties_request h (dict_get kv "objectId" (PStr EmptyString))) w)
          = Ok (PDict rkv) ->
        dict_lookup rkv "result" = None ->
        getProperties r w =
          (Raise (KeyError "result"),
           after (getProperties_request h (dict_get kv "objectId" (PStr EmptyString))) [] w))
  /\ (forall rkv props e,
        fst (answer (getProperties_request h (dict_get kv "objectId" (PStr EmptyString))) w)
          = Ok (PDict rkv) ->
        dict_lookup rkv "result" = Some props ->
        py_iter props = Raise e ->
        getProperties r w =
          (Raise TypeError,
           after (getProperties_request h (dict_get kv "objectId" (PStr EmptyString))) [] w)).
Proof.
  intros Hr Hk.
  assert (Hrun : getProperties r w =
                 bind (send (h_client h) "Runtime.getProperties"
                         (rq_params (getProperties_request h
                                       (dict_get kv "objectId" (PStr EmptyString)))))
                      (fun response =>
                         bind (lift (py_getitem response "result"))
                              (fun props =>
                                 bind (lift (py_iter props))
                                      (fun items =>
                                         getProperties_loop (h_context h) items []))) w).
  { unfold getProperties, bind at 1. rewrite (load_some _ _ _ Hr).
    unfold bind at 1, lift at 1. now rewrite Hk. }
  repeat match goal with |- _ /\ _ => split end.
  - intros e He. rewrite Hrun. unfold bind at 1. rewrite send_answer.
    change (mkRequest (h_client h) "Runtime.getProperties" _)
      with (getProperties_request h (dict_get kv "objectId" (PStr EmptyString))).
    rewrite He. now rewrite after_nil.
  - intros rkv Hkv Hno. rewrite Hrun. unfold bind at 1. rewrite send_answer.
    change (mkRequest (h_client h) "Runtime.getProperties" _)
      with (getProperties_request h (dict_get kv "objectId" (PStr EmptyString))).
    rewrite Hkv. unfold bind, lift. cbn [py_getitem]. rewrite Hno.
    now rewrite after_nil.
  - intros rkv props e Hkv Hv Hit. rewrite Hrun. unfold bind at 1. rewrite send_answer.
    change (mkRequest (h_client h) "Runtime.getProperties" _)
      with (getProperties_request h (dict_get kv "objectId" (PStr EmptyString))).
    rewrite Hkv. unfold bind, lift. cbn [py_getitem]. rewrite Hv.
    assert (e = TypeError) as -> by (destruct props; cbn in Hit; congruence).
    rewrite Hit. now rewrite after_nil.
Qed.

(** *** [toString] and [asElement] *)

Lemma lookup_set_flag (r : nat) (b : bool) w :
  heap (set_flag r b w) !! r = set_disposed b <$> heap w !! r.
Proof. unfold set_flag. cbn [heap]. apply list_lookup_alter_eq. Qed.

(** [toString] and [asElement] work on what the handle holds: they leave
    the world as it was, so that they send nothing, and [toString] returns
    the same whatever the [_disposed] flag. On a descriptor that carries an
    [objectId], the string is "JSHandle@" followed by the subtype, or by
    the type when the descriptor carries no subtype. *)
Theorem toString_local (r : nat) w :
  snd (toString r w) = w
  /\ asElement r w = (Ok PNone, w)
  /\ (forall b, fst (toString r (set_flag r b w)) = fst (toString r w))
  /\ (forall h kv,
        heap w !! r = Some h ->
        h_remoteObject h = PDict kv ->
        carries kv "objectId" = true ->
        fst (toString r w) =
          Ok (String.append "JSHandle@"
                (py_str (if carries kv "subtype"
                         then dict_get kv "subtype" PNone
                         else dict_get kv "type" PNone)))).
Proof.
  repeat match goal with |- _ /\ _ => split end.
  - unfold toString, bind, lift, load, ret.
    destruct (heap w !! r) as [h |]; [| reflexivity].
    destruct (py_get (h_remoteObject h) "objectId") as [o |]; [| reflexivity].
    destruct (truthy o).
    + destruct (py_get (h_remoteObject h) "subtype") as [s |]; [| reflexivity].
      destruct (truthy s); [reflexivity |].
      now destruct (py_get (h_remoteObject h) "type").
    + now destruct (valueFromRemoteObject (h_remoteObject h)).
  - reflexivity.
  - intros b. unfold toString, bind, lift, load, ret.
    rewrite lookup_set_flag.
    destruct (heap w !! r) as [h |]; [| reflexivity]. cbn [fmap option_fmap option_map].
    cbn [h_remoteObject set_disposed].
    destruct (py_get (h_remoteObject h) "objectId") as [o |]; [| reflexivity].
    destruct (truthy o).
    + destruct (py_get (h_remoteObject h) "subtype") as [s |]; [| reflexivity].
      destruct (truthy s); [reflexivity |].
      now destruct (py_get (h_remoteObject h) "type").
    + now destruct (valueFromRemoteObject (h_remoteObject h)).
  - intros h kv Hr Hk Hc. unfold toString, bind, lift, ret.
    rewrite (load_some _ _ _ Hr), Hk, !py_get_dict.
    unfold carries in *. rewrite Hc.
    now destruct (truthy (dict_get kv "subtype" PNone)).
Qed.

(** *** The mapping of [getProperties] and [getProperty] *)

Lemma props_lookup_In (ps : Properties) (name : string) (a : nat) :
  props_lookup ps name = Some a -> In (PStr name, a) ps.
Proof.
  induction ps as [| [k r] rest IH]; cbn; [discriminate |].
  destruct (props_lookup rest name) as [r' |].
  - intros H. injection H as ->. right. now apply IH.
  - destruct k as [| | | | s | | |]; try discriminate.
    destruct (String.eqb s name) eqn:Hs; [| discriminate].
    apply String.eqb_eq in Hs as ->. intros H. injection H as ->. now left.
Qed.

Lemma props_lookup_None (ps : Properties) (name : string) :
  props_lookup ps name = None <-> forall a, ~ In (PStr name, a) ps.
Proof.
  induction ps as [| [k r] rest IH]; cbn.
  { split; [intros _ a [] | reflexivity]. }
  destruct (props_lookup rest name) as [r' |] eqn:Hrest.
  - split; [discriminate |]. intros Hno. exfalso.
    apply (Hno r'). right. now apply props_lookup_In.
  - assert (Hnone : forall a, ~ In (PStr name, a) rest) by now apply IH.
    destruct k as [| | | | s | | |];
      try (split; [intros _ a [Heq | Hin]; [discriminate Heq | exact (Hnone a Hin)]
                  | reflexivity]).
    destruct (String.eqb s name) eqn:Hs.
    + apply String.eqb_eq in Hs as ->. split; [discriminate |].
      intros Hno. exfalso. apply (Hno r). now left.
    + apply String.eqb_neq in Hs. split; [| reflexivity].
      intros _ a [Heq | Hin]; [congruence | exact (Hnone a Hin)].
Qed.

(** A name is bound to the handle of its last binding. *)
Lemma props_lookup_last (ps : Properties) (name : string) (a : nat) :
  props_lookup ps name = Some a <->
  exists i,
    ps !! i = Some (PStr name, a)
    /\ forall j b, i < j -> ps !! j <> Some (PStr name, b).
Proof.
  revert a. induction ps as [| [k r] rest IH]; intros a; cbn [props_lookup].
  { split; [discriminate | intros (i & H & _); destruct i; discriminate H]. }
  destruct (props_lookup rest name) as [r' |] eqn:Hrest.
  - split.
    + intros H. injection H as <-.
      destruct (proj1 (IH r') eq_refl) as (i & Hi & Hlast).
      exists (S i). split; [exact Hi |].
      intros [| j] b Hlt; [lia |]. cbn. apply Hlast. lia.
    + intros ([| i] & Hi & Hlast).
      * exfalso. apply props_lookup_In, list_elem_of_In, list_elem_of_lookup_1 in Hrest
          as [j Hj].
        exact (Hlast (S j) r' ltac:(lia) Hj).
      * apply IH. exists i. split; [exact Hi |].
        intros j b Hlt. apply (Hlast (S j) b). lia.
  - pose proof (proj1 (props_lookup_None rest name) Hrest) as Hnone.
    split.
    + destruct k as [| | | | s | | |]; try discriminate.
      destruct (String.eqb s name) eqn:Hs; [| discriminate].
      apply String.eqb_eq in Hs as ->. intros H. injection H as ->.
      exists 0. split; [reflexivity |].
      intros [| j] b Hlt; [lia |]. cbn. intros Hj.
      apply (Hnone b). now apply list_elem_of_In, (list_elem_of_lookup_2 _ j).
    + intros ([| i] & Hi & _).
      * cbn in Hi. injection Hi as -> ->. now rewrite String.eqb_refl.
      * exfalso. cbn in Hi. apply (Hnone a).
        now apply list_elem_of_In, (list_elem_of_lookup_2 _ i).
Qed.

Lemma enumerable_entries_lookup (base : nat) (items : list PyVal) (i : nat)
    (k : PyVal) (a : nat) :
  enumerable_entries base items !! i = Some (k, a) <->
  exists prop,
    List.filter enumerable items !! i = Some prop /\ k = prop_name prop /\ a = base + i.
Proof.
  unfold enumerable_entries. cbn zeta.
  generalize (List.filter enumerable items) as kept. intros kept. revert base i.
  induction kept as [| p kept IH]; intros base i; cbn.
  { split; [discriminate | intros (prop & H & _); destruct i; discriminate H]. }
  destruct i as [| i]; cbn.
  - split.
    + intros H. injection H as <- <-. exists p. repeat split. lia.
    + intros (prop & H & -> & ->). injection H as ->. do 2 f_equal. lia.
  - rewrite IH. split; intros (prop & H & Hk & Ha); exists prop; repeat split; auto; lia.
Qed.

(** For a response that lists well-formed properties, [getProperties] makes
    one new live handle for each enumerable property, in the order of the
    response and after the handles already there, which it leaves as they
    were. A name is bound to the handle of the last enumerable property of
    that name: an earlier one of the same name has its handle made, and is
    not reached by the mapping. *)
Theorem getProperties_mapping (r : nat) h (kv : list (string * PyVal)) w
    (resp props : PyVal) (items : list PyVal) :
  heap w !! r = Some h ->
  h_remoteObject h = PDict kv ->
  fst (answer (getProperties_request h (dict_get kv "objectId" (PStr EmptyString))) w)
    = Ok resp ->
  py_getitem resp "result" = Ok props ->
  py_iter props = Ok items ->
  Forall (fun p => wf_prop p = true) items ->
  exists ps,
    getProperties r w =
      (Ok ps,
       after (getProperties_request h (dict_get kv "objectId" (PStr EmptyString)))
             (wrap (h_context h) <$> List.filter enumerable items) w)
    /\ length ps = length (List.filter enumerable items)
    /\ forall name a,
         props_lookup ps name = Some a <->
         exists i prop,
           List.filter enumerable items !! i = Some prop
           /\ prop_name prop = PStr name
           /\ a = length (heap w) + i
           /\ forall j prop',
                i < j -> List.filter enumerable items !! j = Some prop' ->
                prop_name prop' <> PStr name.
Proof.
  intros Hr Hk Hans Hres Hiter Hwf.
  set (q := getProperties_request h (dict_get kv "objectId" (PStr EmptyString))) in *.
  assert (Hsend : client_send (h_client h) "Runtime.getProperties"
                    (PDict [("objectId", dict_get kv "objectId" (PStr EmptyString));
                            ("ownProperties", PBool true)]) (net w)
                  = (Ok resp, snd (answer q w))).
  { change (answer q w = (Ok resp, snd (answer q w))).
    rewrite <- Hans. apply surjective_pairing. }
  exists (enumerable_entries (length (heap w)) items).
  split; [exact (getProperties_run _ _ _ _ _ _ _ _ Hr Hk Hsend Hres Hiter Hwf) |].
  split.
  { unfold enumerable_entries. cbn zeta.
    rewrite length_combine, length_map, length_seq. lia. }
  intros name a. rewrite props_lookup_last. split.
  - intros (i & Hi & Hlast).
    apply enumerable_entries_lookup in Hi as (prop & Hp & Hn & Ha).
    exists i, prop. repeat split; auto.
    intros j prop' Hlt Hj Hname.
    apply (Hlast j (length (heap w) + j) Hlt).
    apply enumerable_entries_lookup. exists prop'. repeat split; auto.
  - intros (i & prop & Hp & Hn & Ha & Hlast).
    exists i. split.
    + apply enumerable_entries_lookup. exists prop. repeat split; auto.
    + intros j b Hlt Hj.
      apply enumerable_entries_lookup in Hj as (prop' & Hp' & Hn' & _).
      exact (Hlast j prop' Hlt Hp' (eq_sym Hn')).
Qed.

(** The loop of [getProperties] only adds handles. *)
Lemma getProperties_loop_appends (context : ExecutionContext) (items : list PyVal) :
  forall (acc : Properties) w,
    exists hs, heap (snd (getProperties_loop context items acc w)) = heap w ++ hs.
Proof.
  induction items as [| p rest IH]; intros acc w; cbn [getProperties_loop].
  { exists []. cbn. now rewrite app_nil_r. }
  unfold bind, lift.
  destruct (py_get p "enumerable") as [e |]; [| exists []; cbn; now rewrite app_nil_r].
  destruct (truthy e); cbn [negb]; [| apply IH].
  destruct (py_get p "value") as [v |]; [| exists []; cbn; now rewrite app_nil_r].
  unfold objectHandleFactory.
  destruct (py_get p "name") as [n |]; [| eexists; cbn; reflexivity].
  destruct (hashable n); [| eexists; cbn; reflexivity].
  match goal with |- context [getProperties_loop _ _ ?a ?w'] =>
    destruct (IH a w') as [hs Hhs] end.
  rewrite Hhs. cbn [heap]. eexists. now rewrite <- app_assoc.
Qed.

Lemma getProperties_appends (r : nat) w :
  exists hs, heap (snd (getProperties r w)) = heap w ++ hs.
Proof.
  unfold getProperties, bind, lift, load.
  destruct (heap w !! r) as [h |]; [| exists []; cbn; now rewrite app_nil_r].
  destruct (py_get_default (h_remoteObject h) "objectId" (PStr EmptyString)) as [o |];
    [| exists []; cbn; now rewrite app_nil_r].
  rewrite send_answer.
  destruct (fst (answer _ w)) as [resp | e];
    [| exists []; cbn; now rewrite app_nil_r].
  destruct (py_getitem resp "result") as [props |];
    [| exists []; cbn; now rewrite app_nil_r].
  destruct (py_iter props) as [items |]; [| exists []; cbn; now rewrite app_nil_r].
  match goal with |- context [getProperties_loop ?c ?i ?a ?w'] =>
    destruct (getProperties_loop_appends c i a w') as [hs Hhs] end.
  exists hs. now rewrite Hhs.
Qed.

(** [getProperty] asks for a carrier object and reads its properties. When
    the mapping binds the name, the carrier is disposed and the bound
    handle returned (or the error of the release raised). When it does not,
    [KeyError] is raised before the carrier is disposed: the carrier stays
    live and no release request is sent. *)
Theorem getProperty_outcome (r : nat) h (propertyName : string) w
    (carrier : nat) (w1 : World) (ps : Properties) (w2 : World) :
  heap w !! r = Some h ->
  evaluateHandle (h_context h) property_source [PHandle r; PStr propertyName] w
    = (Ok carrier, w1) ->
  getProperties carrier w1 = (Ok ps, w2) ->
  ((forall a, ~ In (PStr propertyName, a) ps) ->
   getProperty r propertyName w = (Raise (KeyError propertyName), w2)
   /\ disposed_at w2 carrier = Some false
   /\ release_requests (sent w2) = release_requests (sent w))
  /\ (forall a0,
        In (PStr propertyName, a0) ps ->
        exists a,
          In (PStr propertyName, a) ps
          /\ getProperty r propertyName w =
               (match fst (dispose carrier w2) with
                | Ok _ => Ok a
                | Raise e => Raise e
                end, snd (dispose carrier w2))
          /\ disposed_at (snd (dispose carrier w2)) carrier = Some true).
Proof.
  intros Hr Heval Hprops.
  destruct (evaluateHandle_ok _ _ _ _ _ _ Heval) as (d & q & Hc & Hheap & _ & _).
  assert (Hcell1 : heap w1 !! carrier =
                   Some (mkJSHandle (h_context h) (ec_client (h_context h)) d false)).
  { rewrite Hheap, Hc. now apply list_lookup_middle. }
  assert (Hcell2 : heap w2 !! carrier =
                   Some (mkJSHandle (h_context h) (ec_client (h_context h)) d false)).
  { destruct (getProperties_appends carrier w1) as [hs Hhs].
    rewrite Hprops in Hhs. cbn [snd] in Hhs. rewrite Hhs.
    now apply lookup_app_l_Some. }
  assert (Hrun : getProperty r propertyName w =
                 match props_lookup ps propertyName with
                 | Some result => bind (dispose carrier) (fun _ => ret result) w2
                 | None => (Raise (KeyError propertyName), w2)
                 end).
  { unfold getProperty, bind at 1. rewrite (load_some _ _ _ Hr).
    unfold bind at 1. rewrite Heval. unfold bind at 1. rewrite Hprops.
    now destruct (props_lookup ps propertyName). }
  split.
  - intros Hno. apply props_lookup_None in Hno. rewrite Hrun, Hno.
    split; [reflexivity |]. split.
    + unfold disposed_at. now rewrite Hcell2.
    + pose proof (quiet_getProperties carrier w1) as Hq1.
      rewrite Hprops in Hq1. cbn [snd] in Hq1.
      pose proof (quiet_evaluateHandle (h_context h) property_source
                    [PHandle r; PStr propertyName] w) as Hq0.
      rewrite Heval in Hq0. cbn [snd] in Hq0. congruence.
  - intros a0 Hin.
    destruct (props_lookup ps propertyName) as [a |] eqn:Hlook.
    + exists a. split; [now apply props_lookup_In |]. split.
      * rewrite Hrun. unfold bind, ret.
        now destruct (dispose carrier w2) as [[[] | e] w3].
      * now apply (dispose_sets_flag carrier _ w2 Hcell2).
    + exfalso. exact (proj1 (props_lookup_None ps propertyName) Hlook a0 Hin).
Qed.

End Outcomes.

(** ** How many requests an operation sends *)

Section Counting.

Context {ext : Externals}.

Implicit Types (self : ExecutionContext) (w : World).

Lemma silent_ret {A} (a : A) : sends_at_most 0 (ret a).
Proof. intros w. exists []. cbn. now rewrite app_nil_r. Qed.

Lemma silent_raise {A} (e : Exn) : sends_at_most 0 (@raise _ A e).
Proof. intros w. exists []. cbn. now rewrite app_nil_r. Qed.

Lemma silent_lift {A} (x : result A) : sends_at_most 0 (lift x).
Proof. intros w. exists []. cbn. now rewrite app_nil_r. Qed.

Lemma silent_load (r : nat) : sends_at_most 0 (load r).
Proof.
  intros w. exists []. unfold load. destruct (heap w !! r); cbn; now rewrite app_nil_r.
Qed.

Lemma silent_factory self (d : PyVal) : sends_at_most 0 (objectHandleFactory self d).
Proof. intros w. exists []. cbn. now rewrite app_nil_r. Qed.

Lemma sends_more {A} (n n' : nat) (m : M A) :
  n <= n' -> sends_at_most n m -> sends_at_most n' m.
Proof.
  intros Hle Hm w. destruct (Hm w) as (more & Hs & Hl). exists more. split; [exact Hs | lia].
Qed.

Lemma silent_then {A B} (n : nat) (m : M A) (k : A -> M B) :
  sends_at_most 0 m -> (forall a, sends_at_most n (k a)) -> sends_at_most n (bind m k).
Proof.
  intros Hm Hk w. unfold bind. destruct (Hm w) as (more & Hs & Hl).
  destruct more; [| cbn in Hl; lia]. rewrite app_nil_r in Hs.
  destruct (m w) as [[a | e] w']; cbn [snd] in *.
  - destruct (Hk a w') as (more' & Hs' & Hl'). exists more'. split; [congruence | exact Hl'].
  - exists []. split; [rewrite app_nil_r; exact Hs | cbn; lia].
Qed.

Lemma send_then {B} client method params (k : PyVal -> M B) :
  (forall a, sends_at_most 0 (k a)) ->
  sends_at_most 1 (bind (send client method params) k).
Proof.
  intros Hk w. unfold bind. rewrite send_answer.
  destruct (fst (answer _ w)) as [a | e].
  - match goal with |- context [k a ?w'] => destruct (Hk a w') as (more & Hs & Hl) end.
    destruct more; [| cbn in Hl; lia]. rewrite app_nil_r in Hs. cbn [sent] in Hs.
    eexists. split; [exact Hs | cbn; lia].
  - eexists. cbn [snd sent]. split; [reflexivity | cbn; lia].
Qed.

Lemma silent_mapM {A B} (f : A -> M B) (l : list A) :
  (forall a, sends_at_most 0 (f a)) -> sends_at_most 0 (mapM f l).
Proof.
  intros Hf. induction l as [| a rest IH]; cbn [mapM].
  - apply silent_ret.
  - apply silent_then; [apply Hf | intros b].
    apply silent_then; [exact IH | intros bs]. apply silent_ret.
Qed.

Ltac count_step :=
  first
    [ apply silent_ret | apply silent_raise | apply silent_lift | apply silent_load
    | apply silent_factory
    | apply send_then; intros ?
    | apply silent_then; [| intros ?]
    | match goal with
      | |- sends_at_most _ (if ?b then _ else _) => destruct b
      | |- sends_at_most _ (match ?x with _ => _ end) => destruct x
      end
    | apply (sends_more 0 1); [lia |] ].

Lemma silent_convertArgument self (arg : PyVal) : sends_at_most 0 (_convertArgument self arg).
Proof. unfold _convertArgument. repeat count_step. Qed.

Lemma silent_loop (context : ExecutionContext) (items : list PyVal) :
  forall acc : Properties, sends_at_most 0 (getProperties_loop context items acc).
Proof.
  induction items as [| p rest IH]; intros acc; cbn [getProperties_loop].
  - apply silent_ret.
  - repeat first [apply IH | count_step].
Qed.

(** Each of [evaluateHandle], [queryObject], [getProperties] and
    [jsonValue] sends one request at most, on every path; encoding an
    argument, [toString] and [asElement] send none. *)
Theorem one_request_at_most :
  (forall self pageFunction args, sends_at_most 1 (evaluateHandle self pageFunction args))
  /\ (forall self prototypeHandle, sends_at_most 1 (queryObject self prototypeHandle))
  /\ (forall r, sends_at_most 1 (getProperties r))
  /\ (forall r, sends_at_most 1 (jsonValue r))
  /\ (forall self arg, sends_at_most 0 (_convertArgument self arg))
  /\ (forall r, sends_at_most 0 (toString r))
  /\ (forall r, sends_at_most 0 (asElement r)).
Proof.
  repeat match goal with |- _ /\ _ => split end; intros.
  - unfold evaluateHandle.
    apply silent_then; [apply silent_mapM, silent_convertArgument | intros ?].
    repeat count_step.
  - unfold queryObject. repeat count_step.
  - unfold getProperties. repeat first [apply silent_loop | count_step].
  - unfold jsonValue. repeat count_step.
  - apply silent_convertArgument.
  - unfold toString. repeat count_step.
  - apply silent_ret.
Qed.

End Counting.


(** ** Runs on the scripted session *)

Section Runs.

Local Existing Instance scripted.

(** *** The model on the scenarios of the specification *)

Example truthy_negative_zero : truthy (PFloat neg_zero) = false.
Proof. reflexivity. Qed.

Example truthy_nan : truthy (PFloat nan) = true.
Proof. reflexivity. Qed.

(** [evaluate("(a,b) => a+b", 1, 2)] sends both arguments by value and
    returns 3. *)
Example evaluate_sum :
  let run := evaluate ctx0 "(a,b) => a+b" [PInt 1; PInt 2] (world0 [] script_sum) in
  fst run = Ok (PInt 3)
  /\ (rq_params <$> sent (snd run) !! 0) =
       Some (PDict [("functionDeclaration", PStr "(a,b) => a+b");
                    ("executionContextId", PInt 1);
                    ("arguments", PList [PDict [("value", PInt 1)];
                                         PDict [("value", PInt 2)]]);
                    ("returnByValue", PBool false);
                    ("awaitPromiss", PBool true)]).
Proof. split; reflexivity. Qed.

(** An exception in the page surfaces as [ElementHandleError]. *)
Example evaluate_throws :
  evaluate ctx0 page_function [] (world0 [] script_throws) =
    (Raise (ElementHandleError "Evaluation failed: Error: thrown in the page"),
     mkWorld [] [] (sent (snd (evaluate ctx0 page_function [] (world0 [] script_throws))))).
Proof. reflexivity. Qed.

(** [getProperty("x")] returns a handle on 5 and releases the carrier. *)
Example getProperty_x :
  let run := getProperty 0 "x" (world0 [live_object] script_getProperty) in
  fst run = Ok 2
  /\ fst (jsonValue 2 (snd run)) = Ok (PInt 5)
  /\ disposed_at (snd run) 1 = Some true
  /\ List.map rq_method (sent (snd run)) =
       ["Runtime.callFunctionOn"; "Runtime.getProperties"; "Runtime.releaseObject"].
Proof. repeat split. Qed.

(** A handle of another context is refused, as is a disposed one. *)
Example convertArgument_checks :
  fst (_convertArgument ctx0 (PHandle 0) (world0 [foreign_object] [])) =
    Raise (ElementHandleError msg_other_context)
  /\ fst (_convertArgument ctx0 (PHandle 0) (world0 [disposed_object] [])) =
       Raise (ElementHandleError msg_disposed).
Proof. split; reflexivity. Qed.

(** C1 fails on the code: the remote side refuses to return the object by
    value, [jsonValue] raises, and [evaluate] passes the exception on with
    the handle it got from [evaluateHandle] still live and no release
    request sent. *)
Lemma evaluate_leaks_handle_when_jsonValue_raises :
  let w := world0 [] script_evaluate_fails in
  fst (evaluateHandle ctx0 page_function [] w) = Ok 0
  /\ fst (jsonValue 0 (snd (evaluateHandle ctx0 page_function [] w))) = Raise not_by_value
  /\ fst (evaluate ctx0 page_function [] w) = Raise not_by_value
  /\ disposed_at (snd (evaluate ctx0 page_function [] w)) 0 = Some false
  /\ release_requests (sent (snd (evaluate ctx0 page_function [] w))) = 0.
Proof. repeat split. Qed.

(** The amended C1 on a run where [jsonValue] returns 5. *)
Lemma evaluate_disposes_after_jsonValue_witness :
  evaluate ctx0 page_function [] (world0 [] script_evaluate) =
    (Ok (PInt 5),
     mkWorld [disposed_object] []
       (sent (snd (evaluate ctx0 page_function [] (world0 [] script_evaluate)))))
  /\ disposed_at (snd (evaluate ctx0 page_function [] (world0 [] script_evaluate))) 0
     = Some true.
Proof.
  exact (proj1 (evaluate_disposes_after_jsonValue ctx0 page_function []
                  (world0 [] script_evaluate) 0
                  (snd (evaluateHandle ctx0 page_function [] (world0 [] script_evaluate)))
                  eq_refl)
           (PInt 5)
           (snd (jsonValue 0
                   (snd (evaluateHandle ctx0 page_function []
                           (world0 [] script_evaluate)))))
           eq_refl).
Defined.

(** C2 fails on the code: once [dispose] has completed on a handle,
    [jsonValue] still returns the value and [getProperties] the properties;
    neither raises. *)
Lemma disposed_handle_still_answers :
  let start := world0 [live_five] [Ok (PDict []); Ok response_props] in
  let w := snd (dispose 0 start) in
  fst (dispose 0 start) = Ok tt
  /\ disposed_at w 0 = Some true
  /\ jsonValue 0 w = (Ok (PInt 5), w)
  /\ fst (getProperties 0 w) = Ok [(PStr "x", 1)]
  /\ fst (jsonValue 0 w) <> Raise (ElementHandleError msg_disposed)
  /\ fst (getProperties 0 w) <> Raise (ElementHandleError msg_disposed).
Proof. repeat split; discriminate. Qed.

(** The amended C2 on a disposed handle. *)
Lemma disposed_handle_operations_witness :
  getProperty 0 "x" (world0 [disposed_five] []) =
    (Raise (ElementHandleError msg_disposed), world0 [disposed_five] []).
Proof.
  exact (proj1 (disposed_handle_operations 0 disposed_five
                  (world0 [disposed_five] []) eq_refl) eq_refl "x").
Defined.

(** C3 fails on the code: the descriptor has no [objectId], the request is
    sent all the same, and the mapping holds what the response lists. *)
Lemma getProperties_without_objectId_not_empty :
  let w := world0 [live_five] [Ok response_props] in
  py_getitem desc_five "objectId" = Raise (KeyError "objectId")
  /\ fst (getProperties 0 w) = Ok [(PStr "x", 1)]
  /\ fst (getProperties 0 w) <> Ok [].
Proof. repeat split; discriminate. Qed.

(** The amended C3 on a handle for the number 5. *)
Lemma getProperties_without_objectId_witness :
  sent (snd (getProperties 0 (world0 [live_five] [Ok response_props]))) =
    [getProperties_request live_five (PStr EmptyString)]
  /\ fst (getProperties 0 (world0 [live_five] [Ok response_props])) = Ok [(PStr "x", 1)].
Proof.
  pose proof (getProperties_without_objectId 0 live_five
                [("type", PStr "number"); ("value", PInt 5)]
                (world0 [live_five] [Ok response_props])
                eq_refl eq_refl eq_refl) as [Hsent Hres].
  split; [exact Hsent |].
  refine (proj1 (Hres response_props [] _ [prop_x; prop_hidden] eq_refl eq_refl eq_refl _)).
  repeat constructor.
Defined.

(** The handle rule of C4 on a live object of this context. *)
Lemma convertArgument_first_match_witness :
  _convertArgument ctx0 (PHandle 0) (world0 [live_object] []) =
    (Ok (PDict [("objectId", PStr "obj-1")]), world0 [live_object] []).
Proof.
  exact (proj1 (proj2 (proj2 (convertArgument_first_match ctx0 (PHandle 0)
                                (world0 [live_object] []))))
           0 live_object _ eq_refl eq_refl eq_refl eq_refl eq_refl).
Defined.

(** C5 on an argument list that holds a handle of another context. *)
Lemma evaluateHandle_rejects_before_send_witness :
  evaluateHandle ctx0 page_function [PInt 1; PHandle 0]
    (world0 [foreign_object] script_evaluate) =
    (Raise (ElementHandleError msg_other_context), world0 [foreign_object] script_evaluate).
Proof.
  destruct (evaluateHandle_rejects_before_send ctx0 page_function [PInt 1; PHandle 0]
              (world0 [foreign_object] script_evaluate))
    as (e & Hrun & _ & _ & Hcross).
  - repeat constructor.
  - exists (PHandle 0). split; [right; left; reflexivity | left; reflexivity].
  - rewrite Hrun, Hcross; [reflexivity |].
    intros a [<- | [<- | []]]; [reflexivity | discriminate].
Defined.

(** C6 on a disposed prototype and on a primitive one. *)
Lemma queryObject_rejects_before_send_witness :
  queryObject ctx0 0 (world0 [disposed_object] script_evaluate) =
    (Raise (ElementHandleError msg_prototype_disposed),
     world0 [disposed_object] script_evaluate)
  /\ queryObject ctx0 0 (world0 [live_five] script_evaluate) =
       (Raise (ElementHandleError msg_prototype_primitive),
        world0 [live_five] script_evaluate).
Proof.
  split.
  - exact (proj1 (queryObject_rejects_before_send ctx0 0 disposed_object
                    (world0 [disposed_object] script_evaluate) eq_refl) eq_refl).
  - exact (proj2 (queryObject_rejects_before_send ctx0 0 live_five
                    (world0 [live_five] script_evaluate) eq_refl)
             _ eq_refl eq_refl eq_refl).
Defined.

(** C7 on a release that fails with an error that is not swallowed: the
    handle is disposed all the same, and the second call is silent. *)
Lemma dispose_idempotent_witness :
  let w := world0 [live_object] [Raise (ElementHandleError "Target crashed")] in
  fst (dispose 0 w) = Raise (ElementHandleError "Target crashed")
  /\ disposed_at (snd (dispose 0 w)) 0 = Some true
  /\ dispose 0 (snd (dispose 0 w)) = (Ok tt, snd (dispose 0 w))
  /\ release_requests (sent (snd (dispose 0 (snd (dispose 0 w))))) <= 0 + 1.
Proof.
  intros w.
  destruct (dispose_idempotent 0 live_object w eq_refl) as (Hflag & Hsecond & Hcount & _).
  split; [reflexivity |]. split; [exact Hflag |]. split; [exact Hsecond | exact Hcount].
Defined.

(** C8 on a primitive and on an object. *)
Lemma jsonValue_requests_witness :
  jsonValue 0 (world0 [live_five] script_evaluate) =
    (Ok (PInt 5), world0 [live_five] script_evaluate)
  /\ length (sent (snd (jsonValue 0 (world0 [live_object] script_evaluate)))) = 1.
Proof.
  split.
  - exact (proj1 (jsonValue_requests 0 live_five _ (world0 [live_five] script_evaluate)
                    eq_refl eq_refl) eq_refl).
  - destruct (proj2 (jsonValue_requests 0 live_object _
                       (world0 [live_object] script_evaluate) eq_refl eq_refl) eq_refl)
      as [Hsent _].
    rewrite Hsent. reflexivity.
Defined.

(** C9 on a response with one enumerable and one hidden property. *)
Lemma getProperties_enumerable_only_witness :
  exists (ps : Properties) (w' : World),
    getProperties 0 (world0 [live_object] [Ok response_props]) = (Ok ps, w')
    /\ (forall k a, In (k, a) ps ->
          exists prop,
            In prop [prop_x; prop_hidden] /\ enumerable prop = true /\ k = prop_name prop
            /\ heap w' !! a = Some (wrap ctx0 prop))
    /\ (forall prop, In prop [prop_x; prop_hidden] -> enumerable prop = true ->
          exists a, In (prop_name prop, a) ps /\ heap w' !! a = Some (wrap ctx0 prop)).
Proof.
  refine (getProperties_enumerable_only 0 live_object _
            (world0 [live_object] [Ok response_props]) response_props [] _
            [prop_x; prop_hidden] eq_refl eq_refl eq_refl eq_refl eq_refl _).
  repeat constructor.
Defined.

(** C10 on NaN and on negative zero. *)
Lemma convertArgument_nan_negative_zero_witness :
  _convertArgument ctx0 (PFloat nan) (world0 [] []) =
    (Ok (PDict [("value", PFloat nan)]), world0 [] [])
  /\ _convertArgument ctx0 (PFloat neg_zero) (world0 [] []) =
       (Ok (PDict [("value", PFloat neg_zero)]), world0 [] []).
Proof.
  split.
  - exact (convertArgument_nan_negative_zero ctx0 nan (world0 [] []) (or_introl eq_refl)).
  - exact (convertArgument_nan_negative_zero ctx0 neg_zero (world0 [] [])
             (or_intror eq_refl)).
Defined.

End Runs.

(** ** Further runs on the scripted session *)

Section FurtherRuns.

Local Existing Instance scripted.

(** The page throws: the error carries the message, and the heap stays
    empty. *)
Lemma evaluateHandle_fails_without_handle_witness :
  evaluateHandle ctx0 page_function [PInt 1] (world0 [] script_throws) =
    (Raise (ElementHandleError "Evaluation failed: Error: thrown in the page"),
     after (evaluateHandle_request ctx0 page_function [PDict [("value", PInt 1)]]) []
           (world0 [] script_throws)).
Proof.
  exact (proj2 (evaluateHandle_fails_without_handle ctx0 page_function
                  [PInt 1] [PDict [("value", PInt 1)]] (world0 [] script_throws)
                  (List.Forall2_cons (PInt 1) (PDict [("value", PInt 1)]) eq_refl (List.Forall2_nil _)))
           [("exceptionDetails", PDict [("text", PStr "Uncaught")])]
           "Error: thrown in the page" eq_refl eq_refl eq_refl).
Defined.

(** The page returns an object: handle 0 is made for it. *)
Lemma evaluateHandle_returns_new_handle_witness :
  evaluateHandle ctx0 page_function [PInt 1] (world0 [] script_evaluate) =
    (Ok 0,
     after (evaluateHandle_request ctx0 page_function [PDict [("value", PInt 1)]])
           [live_object] (world0 [] script_evaluate)).
Proof.
  exact (evaluateHandle_returns_new_handle ctx0 page_function
           [PInt 1] [PDict [("value", PInt 1)]] (world0 [] script_evaluate)
           [("result", desc_object)]
           (List.Forall2_cons (PInt 1) (PDict [("value", PInt 1)]) eq_refl (List.Forall2_nil _)) eq_refl eq_refl).
Defined.

Lemma evaluateHandle_handle_is_new_witness :
  heap (world0 [live_five] script_evaluate) !! 1 = None
  /\ (exists d,
        heap (snd (evaluateHandle ctx0 page_function [PHandle 0]
                     (world0 [live_five] script_evaluate))) !! 1
        = Some (mkJSHandle ctx0 (ec_client ctx0) d false))
  /\ length (heap (snd (evaluateHandle ctx0 page_function [PHandle 0]
                          (world0 [live_five] script_evaluate)))) = 2
  /\ exists vs,
       Forall2 (fun a v => _convertArgument ctx0 a (world0 [live_five] script_evaluate)
                           = (Ok v, world0 [live_five] script_evaluate))
               [PHandle 0] vs
       /\ sent (snd (evaluateHandle ctx0 page_function [PHandle 0]
                       (world0 [live_five] script_evaluate)))
          = [] ++ [evaluateHandle_request ctx0 page_function vs].
Proof.
  exact (evaluateHandle_handle_is_new ctx0 page_function [PHandle 0]
           (world0 [live_five] script_evaluate) 1
           (snd (evaluateHandle ctx0 page_function [PHandle 0]
                   (world0 [live_five] script_evaluate)))
           eq_refl).
Defined.

(** The handle made by [ctx0] is refused by [ctx1] and accepted by [ctx0]. *)
Lemma handle_bound_to_its_context_witness :
  _convertArgument ctx1 (PHandle 0)
    (snd (evaluateHandle ctx0 page_function [] (world0 [] script_evaluate))) =
    (Raise (ElementHandleError msg_other_context),
     snd (evaluateHandle ctx0 page_function [] (world0 [] script_evaluate)))
  /\ exists v,
       _convertArgument ctx0 (PHandle 0)
         (snd (evaluateHandle ctx0 page_function [] (world0 [] script_evaluate))) =
         (Ok v, snd (evaluateHandle ctx0 page_function [] (world0 [] script_evaluate))).
Proof.
  pose proof (handle_bound_to_its_context ctx0 page_function []
                (world0 [] script_evaluate) 0
                (snd (evaluateHandle ctx0 page_function [] (world0 [] script_evaluate)))
                eq_refl) as [Hother Hself].
  split.
  - exact (Hother ctx1 (Nat.neq_succ_0 0)).
  - exact (Hself live_object eq_refl eq_refl).
Defined.

(** After [dispose], the handle is refused as argument, as receiver of
    [getProperty] and as prototype. *)
Lemma no_use_after_dispose_witness :
  (exists e,
     evaluateHandle ctx0 page_function [PInt 1; PHandle 0]
       (snd (dispose 0 (world0 [live_object] [Ok (PDict [])]))) =
       (Raise e, snd (dispose 0 (world0 [live_object] [Ok (PDict [])])))
     /\ (e = ElementHandleError msg_other_context \/ e = ElementHandleError msg_disposed))
  /\ getProperty 0 "x" (snd (dispose 0 (world0 [live_object] [Ok (PDict [])]))) =
       (Raise (ElementHandleError msg_disposed),
        snd (dispose 0 (world0 [live_object] [Ok (PDict [])])))
  /\ queryObject ctx1 0 (snd (dispose 0 (world0 [live_object] [Ok (PDict [])]))) =
       (Raise (ElementHandleError msg_prototype_disposed),
        snd (dispose 0 (world0 [live_object] [Ok (PDict [])]))).
Proof.
  pose proof (no_use_after_dispose 0 live_object (world0 [live_object] [Ok (PDict [])])
                eq_refl) as (Hargs & Hprop & Hquery).
  split; [| split].
  - apply Hargs; [right; left; reflexivity | repeat constructor].
  - exact (Hprop "x").
  - exact (Hquery ctx1).
Defined.

(** A prototype of [ctx0]'s, queried through [ctx1]: the result is bound to
    [ctx1]. *)
Lemma queryObject_outcome_witness :
  queryObject ctx1 0 (world0 [live_object] [Ok (PDict [("objects", desc_carrier)])]) =
    (Ok 1,
     after (queryObject_request ctx1 (PStr "obj-1"))
           [mkJSHandle ctx1 0 desc_carrier false]
           (world0 [live_object] [Ok (PDict [("objects", desc_carrier)])])).
Proof.
  exact (proj2 (queryObject_outcome ctx1 0 live_object
                  [("type", PStr "object"); ("objectId", PStr "obj-1")]
                  (world0 [live_object] [Ok (PDict [("objects", desc_carrier)])])
                  eq_refl eq_refl eq_refl eq_refl)
           [("objects", desc_carrier)] eq_refl).
Defined.

(** A response without [result], and a refusal of the session. *)
Lemma jsonValue_outcome_witness :
  fst (jsonValue 0 (world0 [live_object] [Ok (PDict [])])) = Raise (KeyError "result")
  /\ fst (jsonValue 0 (world0 [live_object] [Raise not_by_value])) = Raise not_by_value.
Proof.
  split.
  - rewrite (proj1 (proj2 (jsonValue_outcome 0 live_object
                             [("type", PStr "object"); ("objectId", PStr "obj-1")]
                             (world0 [live_object] [Ok (PDict [])])
                             eq_refl eq_refl eq_refl)) [] eq_refl eq_refl).
    reflexivity.
  - rewrite (proj1 (jsonValue_outcome 0 live_object
                      [("type", PStr "object"); ("objectId", PStr "obj-1")]
                      (world0 [live_object] [Raise not_by_value])
                      eq_refl eq_refl eq_refl) not_by_value eq_refl).
    reflexivity.
Defined.

(** A [result] that is [None] cannot be iterated. *)
Lemma getProperties_fails_without_handle_witness :
  getProperties 0 (world0 [live_object] [Ok (PDict [("result", PNone)])]) =
    (Raise TypeError,
     after (getProperties_request live_object (PStr "obj-1")) []
           (world0 [live_object] [Ok (PDict [("result", PNone)])])).
Proof.
  exact (proj2 (proj2 (getProperties_fails_without_handle 0 live_object
                         [("type", PStr "object"); ("objectId", PStr "obj-1")]
                         (world0 [live_object] [Ok (PDict [("result", PNone)])])
                         eq_refl eq_refl))
           [("result", PNone)] PNone TypeError eq_refl eq_refl eq_refl).
Defined.

(** Two enumerable properties of the name [x]: both handles are made, the
    name is bound to the second. *)
Lemma getProperties_mapping_witness :
  exists ps,
    getProperties 0 (world0 [live_object] [Ok response_twice]) =
      (Ok ps,
       after (getProperties_request live_object (PStr "obj-1"))
             [wrap ctx0 prop_x; wrap ctx0 prop_x_again]
             (world0 [live_object] [Ok response_twice]))
    /\ length ps = 2
    /\ props_lookup ps "x" = Some 2.
Proof.
  destruct (getProperties_mapping 0 live_object
              [("type", PStr "object"); ("objectId", PStr "obj-1")]
              (world0 [live_object] [Ok response_twice]) response_twice
              (PList [prop_x; prop_hidden; prop_x_again])
              [prop_x; prop_hidden; prop_x_again]
              eq_refl eq_refl eq_refl eq_refl eq_refl)
    as (ps & Hrun & Hlen & Hlook).
  - repeat constructor.
  - exists ps. split; [exact Hrun |]. split; [exact Hlen |].
    apply Hlook. exists 1, prop_x_again.
    split; [reflexivity |]. split; [reflexivity |]. split; [reflexivity |].
    intros [| [| [| j]]] prop' Hlt Hj; try lia; discriminate Hj.
Defined.

(** The carrier binds [x] and not [y]: [getProperty] of [x] disposes the
    carrier, [getProperty] of [y] raises and leaves it live. *)
Lemma getProperty_outcome_witness :
  (exists a,
     In (PStr "x", a) [(PStr "x", 2)]
     /\ getProperty 0 "x" (world0 [live_object] script_getProperty) =
          (Ok a, snd (getProperty 0 "x" (world0 [live_object] script_getProperty)))
     /\ disposed_at (snd (getProperty 0 "x" (world0 [live_object] script_getProperty))) 1
        = Some true)
  /\ fst (getProperty 0 "y" (world0 [live_object] script_getProperty)) = Raise (KeyError "y")
  /\ disposed_at (snd (getProperty 0 "y" (world0 [live_object] script_getProperty))) 1
     = Some false.
Proof.
  split.
  - exact (proj2 (getProperty_outcome 0 live_object "x"
                    (world0 [live_object] script_getProperty) 1
                    (snd (evaluateHandle ctx0 property_source [PHandle 0; PStr "x"]
                            (world0 [live_object] script_getProperty)))
                    [(PStr "x", 2)]
                    (snd (getProperties 1
                            (snd (evaluateHandle ctx0 property_source
                                    [PHandle 0; PStr "x"]
                                    (world0 [live_object] script_getProperty)))))
                    eq_refl eq_refl eq_refl)
             2 (or_introl eq_refl)).
  - destruct (proj1 (getProperty_outcome 0 live_object "y"
                       (world0 [live_object] script_getProperty) 1
                       (snd (evaluateHandle ctx0 property_source [PHandle 0; PStr "y"]
                               (world0 [live_object] script_getProperty)))
                       [(PStr "x", 2)]
                       (snd (getProperties 1
                               (snd (evaluateHandle ctx0 property_source
                                       [PHandle 0; PStr "y"]
                                       (world0 [live_object] script_getProperty)))))
                       eq_refl eq_refl eq_refl))
      as (Hrun & Hflag & _).
    + intros a [Heq | []]. discriminate Heq.
    + rewrite Hrun. split; [reflexivity | exact Hflag].
Defined.

(** The display string of an object. *)
Lemma toString_local_witness :
  fst (toString 0 (world0 [disposed_object] [])) = Ok "JSHandle@<value>".
Proof.
  exact (proj2 (proj2 (proj2 (toString_local 0 (world0 [disposed_object] []))))
           disposed_object [("type", PStr "object"); ("objectId", PStr "obj-1")]
           eq_refl eq_refl eq_refl).
Defined.

End FurtherRuns.
